(** * coverage_lcov.converter: the LCOV report generator

    A shallow embedding of [src/coverage_lcov/converter.py] and the
    properties of its report.

    Conventions of the embedding.
    - A Python [str] is a [string] (its UTF-8 bytes); [f"{n}"] of an [int]
      is stdpp's decimal printer [pretty].
    - [analysis.statements] and [analysis.missing] are Python sets of line
      numbers: [gset positive] (coverage numbers lines from 1, as
      [enumerate(token_lines, 1)] does).
    - The [coverage] package is an external collaborator.  What the
      converter reads from it is data of the model: the listing of file
      reporters, the outcome of [_analyze] for each measured object, the
      outcome of [source_token_lines()] for each reporter.  Its glob
      matcher and the ordering [sorted] uses on file reporters are
      parameters of the development.
    - [output] is the sequence of the pieces appended by [output += ...],
      every one of them a line with its terminator; the [str] that
      [get_lcov] returns is their concatenation.
    - Exceptions are the [Raise] outcome; warnings, files and the standard
      output are the [World] threaded through the monad [M].
    - A [Converter] is the object after its constructor has loaded the
      data; loading is not part of the model. *)

From Stdlib Require Import ZArith Ascii String List Lia Permutation Sorted.
From stdpp Require Import base tactics option list sorting gmap strings pretty.

Local Open Scope Z_scope.

(** ** Strings *)

(** The line terminator ["\n"]. *)
Definition nl : string := String "010"%char EmptyString.

(** [text.encode("ascii")] succeeds when every character is below 128. *)
Definition is_ascii (s : string) : bool :=
  forallb (fun a => (N_of_ascii a <? 128)%N) (list_ascii_of_string s).

(** ** Exceptions and outcomes *)

Inductive exn : Type :=
| NoSource (msg : string)
| NotPython (msg : string)
| CoverageException (msg : string)
| AttributeError (msg : string)
| UnicodeEncodeError (msg : string)
| OSError (msg : string)
| OtherError (name msg : string).

Inductive outcome (A : Type) : Type :=
| Return (a : A)
| Raise (e : exn).
Arguments Return {A} a.
Arguments Raise {A} e.

(** ** The collaborator's data *)

(** [coverage.results.Analysis], as far as the converter reads it. *)
Record Analysis : Type := {
  statements : gset positive;
  missing : gset positive
}.

(** One entry of [source_token_lines()]: the (class, text) tokens of a
    physical line.  Only the number of entries is used. *)
Definition TokenLine : Type := list (string * string).

(** [coverage.python.PythonFileReporter], as far as the converter reads it.
    [source_token_lines] is the outcome of the call: the reporter reads
    its source when called, which is where a missing source shows. *)
Record PythonFileReporter : Type := {
  filename : string;
  relative_filename : string;
  source_token_lines : outcome (list TokenLine);
  should_be_python : bool
}.

(** An element of the listing: a reporter alone, or (newer coverage) a
    tuple of the reporter and its morf. *)
Inductive FileReporterItem : Type :=
| Plain (fr : PythonFileReporter)
| Tupled (fr : PythonFileReporter) (morf : string).

(** The argument of [_analyze]: a reporter, or the morf of a tuple. *)
Inductive Morf : Type :=
| MorfReporter (fr : PythonFileReporter)
| MorfName (morf : string).

Record CoverageConfig : Type := {
  report_include : option (list string);
  report_omit : option (list string);
  ignore_errors : bool
}.

(** The loaded [coverage.coverage] object. *)
Record Coverage : Type := {
  config : CoverageConfig;
  _get_file_reporters : list FileReporterItem;
  _analyze : Morf -> outcome Analysis
}.

Record Converter : Type := {
  relative_path : bool;
  cov_obj : Coverage
}.

(** ** The world: warnings, files, standard output *)

Record Warning : Type := {
  warning_msg : string;
  warning_slug : string
}.

Record World : Type := {
  warnings : list Warning;
  files : gmap string string;
  writable : string -> bool;
  stdout : list string
}.

Definition M (A : Type) : Type := World -> World * outcome A.

Definition ret {A} (a : A) : M A := fun w => (w, Return a).
Definition raise {A} (e : exn) : M A := fun w => (w, Raise e).
Definition bind {A B} (m : M A) (k : A -> M B) : M B :=
  fun w => match m w with
           | (w', Return a) => k a w'
           | (w', Raise e) => (w', Raise e)
           end.

Global Instance M_ret : MRet M := @ret.
Global Instance M_bind : MBind M := fun A B k m => bind m k.

(** [self.cov_obj._warn(msg, slug=slug)] *)
Definition _warn (msg slug : string) : M unit :=
  fun w => ({| warnings := warnings w ++ [{| warning_msg := msg; warning_slug := slug |}];
               files := files w; writable := writable w; stdout := stdout w |},
            Return tt).

(** ** Helpers of the module *)

Definition _unpack_file_reporter (fr : FileReporterItem) : PythonFileReporter :=
  match fr with
  | Plain r => r
  | Tupled r _ => r
  end.

Definition _unpack_morf (fr : FileReporterItem) : Morf :=
  match fr with
  | Plain r => MorfReporter r
  | Tupled _ m => MorfName m
  end.

(** Truth value of [config.report_include] / [config.report_omit]:
    [None] and the empty list are false. *)
Definition truthy (o : option (list string)) : bool :=
  match o with
  | Some (_ :: _) => true
  | _ => false
  end.

Definition patterns (o : option (list string)) : list string := default [] o.

Definition get_hits (line_num : positive) (analysis : Analysis) : option Z :=
  if decide (line_num ∈ missing analysis) then Some 0
  else if decide (line_num ∉ statements analysis) then None
  else Some 1.

(** Python's [enumerate(l, start)]. *)
Fixpoint enumerate {A} (start : positive) (l : list A) : list (positive * A) :=
  match l with
  | [] => []
  | x :: l' => (start, x) :: enumerate (Pos.succ start) l'
  end.

(** The lines of a record block. *)
Definition TN_line : string := "TN:" +:+ nl.
Definition SF_line (name : string) : string := "SF:" +:+ name +:+ nl.
Definition DA_line (i : positive) (hits : Z) : string :=
  "DA:" +:+ pretty i +:+ "," +:+ pretty hits +:+ nl.
Definition LF_line (n : Z) : string := "LF:" +:+ pretty n +:+ nl.
Definition LH_line (n : Z) : string := "LH:" +:+ pretty n +:+ nl.
Definition end_of_record : string := "end_of_record" +:+ nl.

(** Body of [for i, _ in enumerate(token_lines, 1)], on the pair
    [(output, lines_hit)]. *)
Definition line_step (analysis : Analysis) (st : list string * Z)
    (it : positive * TokenLine) : list string * Z :=
  let '(output, lines_hit) := st in
  let i := fst it in
  match get_hits i analysis with
  | Some hits =>
      let lines_hit := if 0 <? hits then lines_hit + 1 else lines_hit in
      (output ++ [DA_line i hits], lines_hit)
  | None => (output, lines_hit)
  end.

Definition line_loop (analysis : Analysis) (token_lines : list TokenLine)
    (st : list string * Z) : list string * Z :=
  fold_left (line_step analysis) (enumerate 1 token_lines) st.

(** ** The converter *)

Section Converter.

(** [GlobMatcher([p], name).match(path)] for one prepared pattern [p]: the
    glob matcher of the collaborator.  A matcher built from a list of
    patterns matches a path when one of the patterns does. *)
Variable glob_match : string -> string -> bool.

(** [a < b] on the elements of the listing, as the collaborator defines
    it. *)
Variable reporter_lt : FileReporterItem -> FileReporterItem -> bool.

Definition matcher_match (pats : list string) (path : string) : bool :=
  existsb (fun p => glob_match p path) pats.

(** [sorted(l)]: Python's sort is stable and compares with [<] only; on a
    strict weak ordering it is stable insertion. *)
Fixpoint sorted_insert (x : FileReporterItem) (l : list FileReporterItem)
    : list FileReporterItem :=
  match l with
  | [] => [x]
  | y :: l' => if reporter_lt y x then y :: sorted_insert x l' else x :: l
  end.

Fixpoint sorted (l : list FileReporterItem) : list FileReporterItem :=
  match l with
  | [] => []
  | x :: l' => sorted_insert x (sorted l')
  end.

(** The listing after the include and the omit filter (the value of
    [file_reporters] at the emptiness test of [get_file_reporters]). *)
Definition filtered_file_reporters (c : Converter) : list FileReporterItem :=
  let file_reporters := _get_file_reporters (cov_obj c) in
  let config := config (cov_obj c) in
  let file_reporters :=
    if truthy (report_include config) then
      List.filter (fun fr => matcher_match (patterns (report_include config))
                               (filename (_unpack_file_reporter fr)))
                  file_reporters
    else file_reporters in
  let file_reporters :=
    if truthy (report_omit config) then
      List.filter (fun fr => negb (matcher_match (patterns (report_omit config))
                                     (filename (_unpack_file_reporter fr))))
                  file_reporters
    else file_reporters in
  file_reporters.

Definition get_file_reporters (c : Converter) : M (list FileReporterItem) :=
  let file_reporters := filtered_file_reporters c in
  match file_reporters with
  | [] => raise (CoverageException "No data to report.")
  | _ => mret file_reporters
  end.

(** The [try] block of the loop of [get_lcov] for one element of the
    listing: the new value of [output], or the exception raised. *)
Definition try_block (c : Converter) (file_reporter : FileReporterItem)
    (output : list string) : outcome (list string) :=
  match _analyze (cov_obj c) (_unpack_morf file_reporter) with
  | Raise e => Raise e
  | Return analysis =>
      let fr := _unpack_file_reporter file_reporter in
      match source_token_lines fr with
      | Raise e => Raise e
      | Return token_lines =>
          let filename :=
            if relative_path c then relative_filename fr else filename fr in
          let output := output ++ [TN_line] in
          let output := output ++ [SF_line filename] in
          let lines_hit := 0 in
          let '(output, lines_hit) :=
            line_loop analysis token_lines (output, lines_hit) in
          let output := output ++ [LF_line (Z.of_nat (size (statements analysis)))] in
          let output := output ++ [LH_line lines_hit] in
          let output := output ++ [end_of_record] in
          Return output
      end
  end.

(** [file_reporter.should_be_python()] and [file_reporter.filename] in the
    [except NotPython] clause are taken on the element of the listing
    itself: a tuple has neither attribute. *)
Definition item_should_be_python (file_reporter : FileReporterItem) : M bool :=
  match file_reporter with
  | Plain fr => mret (should_be_python fr)
  | Tupled _ _ =>
      raise (AttributeError "'tuple' object has no attribute 'should_be_python'")
  end.

Definition item_filename (file_reporter : FileReporterItem) : M string :=
  match file_reporter with
  | Plain fr => mret (filename fr)
  | Tupled _ _ =>
      raise (AttributeError "'tuple' object has no attribute 'filename'")
  end.

(** One iteration of [for file_reporter in sorted(file_reporters)]: the
    [try] block and its [except] clauses. *)
Definition process_file (c : Converter) (file_reporter : FileReporterItem)
    (output : list string) : M (list string) :=
  let config := config (cov_obj c) in
  match try_block c file_reporter output with
  | Return output' => mret output'
  | Raise (NoSource msg) =>
      if negb (ignore_errors config) then raise (NoSource msg)
      else mret output
  | Raise (NotPython msg) =>
      should ← item_should_be_python file_reporter;
      if (should : bool) then
        if ignore_errors config then
          name ← item_filename file_reporter;
          let msg := "Couldn't parse Python file '" +:+ name +:+ "'" in
          _ ← _warn msg "couldnt-parse";
          mret output
        else raise (NotPython msg)
      else mret output
  | Raise e => raise e
  end.

Fixpoint for_each_file (c : Converter) (frs : list FileReporterItem)
    (output : list string) : M (list string) :=
  match frs with
  | [] => mret output
  | file_reporter :: frs' =>
      output' ← process_file c file_reporter output;
      for_each_file c frs' output'
  end.

(** The pieces of [output] at the [return] of [get_lcov]. *)
Definition get_lcov_lines (c : Converter) : M (list string) :=
  let output := [] in
  file_reporters ← get_file_reporters c;
  for_each_file c (sorted file_reporters) output.

Definition get_lcov (c : Converter) : M string :=
  output ← get_lcov_lines c;
  mret (String.concat "" output).

(** [print(lcov_str)] *)
Definition print (s : string) : M unit :=
  fun w => ({| warnings := warnings w; files := files w; writable := writable w;
               stdout := stdout w ++ [s +:+ nl] |}, Return tt).

Definition print_lcov (c : Converter) : M unit :=
  lcov_str ← get_lcov c;
  print lcov_str.

(** [with open(path, "w", encoding="ascii") as f: f.write(text)]: opening
    truncates the file, or fails when the path is not writable; the text
    is encoded when written. *)
Definition write_ascii_file (path text : string) : M unit :=
  fun w =>
    if writable w path then
      if is_ascii text then
        ({| warnings := warnings w; files := <[path := text]> (files w);
            writable := writable w; stdout := stdout w |}, Return tt)
      else
        ({| warnings := warnings w; files := <[path := ""%string]> (files w);
            writable := writable w; stdout := stdout w |},
         Raise (UnicodeEncodeError "'ascii' codec can't encode character"))
    else (w, Raise (OSError path)).

Definition create_lcov (c : Converter) (output_file_path : string) : M unit :=
  lcov_str ← get_lcov c;
  write_ascii_file output_file_path lcov_str.

End Converter.

(** ** Notions used to state the properties *)

(** The line numbers [start], [start + 1], ... of [n] physical lines. *)
Fixpoint pos_seq (start : positive) (n : nat) : list positive :=
  match n with
  | O => []
  | S n' => start :: pos_seq (Pos.succ start) n'
  end.

(** The physical line indices of a file: 1 to the count of token lines. *)
Definition physical_lines (token_lines : list TokenLine) : list positive :=
  pos_seq 1 (length token_lines).

(** The elements of a set of line numbers in ascending order. *)
Definition ascending (s : gset positive) : list positive :=
  merge_sort Pos.le (elements s).

(** The maximum element of a non-empty set of line numbers. *)
Definition max_line (s : gset positive) : positive :=
  foldr Pos.max 1%positive (elements s).

(** The name written on the [SF:] line. *)
Definition emitted_filename (c : Converter) (file_reporter : FileReporterItem)
    : string :=
  let fr := _unpack_file_reporter file_reporter in
  if relative_path c then relative_filename fr else filename fr.

(** The [DA:] line of physical line [i], if it has one. *)
Definition DA_of (analysis : Analysis) (i : positive) : option string :=
  DA_line i <$> get_hits i analysis.

Definition is_hit (analysis : Analysis) (i : positive) : bool :=
  match get_hits i analysis with
  | Some hits => 0 <? hits
  | None => false
  end.

(** The block of a file whose analysis and token lines are available. *)
Definition file_block (c : Converter) (file_reporter : FileReporterItem)
    (analysis : Analysis) (token_lines : list TokenLine) : list string :=
  [TN_line; SF_line (emitted_filename c file_reporter)]
  ++ omap (DA_of analysis) (physical_lines token_lines)
  ++ [LF_line (Z.of_nat (size (statements analysis)));
      LH_line (Z.of_nat (length (List.filter (is_hit analysis)
                                             (physical_lines token_lines))));
      end_of_record].

(** A file is analysed when [_analyze] and [source_token_lines()] return. *)
Definition analysed (c : Converter) (file_reporter : FileReporterItem)
    (analysis : Analysis) (token_lines : list TokenLine) : Prop :=
  _analyze (cov_obj c) (_unpack_morf file_reporter) = Return analysis /\
  source_token_lines (_unpack_file_reporter file_reporter) = Return token_lines.

(** Recognisers of the lines of a block. *)
Definition is_DA_line (s : string) : bool := String.prefix "DA:" s.

Definition ends_with (suffix s : string) : bool :=
  String.prefix (String.rev suffix) (String.rev s).

(** A [DA:] line whose hit count is 0. *)
Definition is_zero_hit_DA_line (s : string) : bool :=
  is_DA_line s && ends_with ("," +:+ "0" +:+ nl) s.

(** [lt] is a strict total order on the elements that satisfy [P]. *)
Definition strict_total_on {A} (lt : A -> A -> bool) (P : A -> Prop) : Prop :=
  (forall x y z, P x -> P y -> P z ->
                 lt x y = true -> lt y z = true -> lt x z = true) /\
  (forall x y, P x -> P y -> lt x y = true -> lt y x = false) /\
  (forall x y, P x -> P y -> lt x y = true \/ x = y \/ lt y x = true).

(** The converter with another listing of the same data. *)
Definition with_listing (c : Converter) (l : list FileReporterItem) : Converter :=
  {| relative_path := relative_path c;
     cov_obj := {| config := config (cov_obj c);
                   _get_file_reporters := l;
                   _analyze := _analyze (cov_obj c) |} |}.

(** No comma in a text (the digits of a line number have none). *)
Fixpoint comma_free (s : string) : bool :=
  match s with
  | EmptyString => true
  | String a s' => negb (Ascii.eqb a ",") && comma_free s'
  end.

(** *** Example data *)

(** A world with no warning, no file, every path writable. *)
Definition ex_world : World :=
  {| warnings := []; files := ∅; writable := fun _ => true; stdout := [] |}.

(** A matcher for the examples: a pattern matches the paths it is a
    prefix of. *)
Definition ex_glob (pattern path : string) : bool := String.prefix pattern path.

(** The ordering of the examples: by file name. *)
Definition ex_lt (a b : FileReporterItem) : bool :=
  String.ltb (filename (_unpack_file_reporter a))
             (filename (_unpack_file_reporter b)).

Definition ex_reporter (name : string) (lines : nat) : PythonFileReporter :=
  {| filename := name;
     relative_filename := name;
     source_token_lines := Return (replicate lines []);
     should_be_python := negb (String.eqb name "page.html") |}.

Definition ex_analysis (s m : list positive) : Analysis :=
  {| statements := list_to_set s; missing := list_to_set m |}.

Definition ex_morf_name (m : Morf) : string :=
  match m with
  | MorfReporter fr => filename fr
  | MorfName name => name
  end.

Definition ex_analyze (m : Morf) : outcome Analysis :=
  let name := ex_morf_name m in
  if String.eqb name "gone.py" then
    Raise (NoSource "No source for code: 'gone.py'.")
  else if String.eqb name "page.html" then
    Raise (NotPython "Couldn't parse 'page.html' as Python source")
  else if String.eqb name "a.py" then
    Return (ex_analysis [1; 2; 3; 5] [2])%positive
  else if String.eqb name "short.py" then
    Return (ex_analysis [1; 5; 6] [5])%positive
  else if String.eqb name "odd.py" then
    Return (ex_analysis [] [1])%positive
  else
    Return (ex_analysis [1; 2] [])%positive.

Definition ex_converter (include omit : option (list string)) (ignore : bool)
    (listing : list FileReporterItem) : Converter :=
  {| relative_path := false;
     cov_obj := {| config := {| report_include := include;
                                report_omit := omit;
                                ignore_errors := ignore |};
                   _get_file_reporters := listing;
                   _analyze := ex_analyze |} |}.

Definition ex_a : FileReporterItem := Plain (ex_reporter "a.py" 5).
Definition ex_b : FileReporterItem := Plain (ex_reporter "b.py" 2).
Definition ex_gone : FileReporterItem := Plain (ex_reporter "gone.py" 0).
Definition ex_short : FileReporterItem := Plain (ex_reporter "short.py" 1).
Definition ex_odd : FileReporterItem := Plain (ex_reporter "odd.py" 1).
Definition ex_page : FileReporterItem := Plain (ex_reporter "page.html" 3).
Definition ex_page_tuple : FileReporterItem :=
  Tupled (ex_reporter "page.html" 3) "page.html".
Definition ex_vendored : FileReporterItem :=
  Plain (ex_reporter "src/vendor/x.py" 2).
Definition ex_module : FileReporterItem := Plain (ex_reporter "src/m.py" 2).

(** *** Notions used by the further properties *)

(** The world after some more warnings. *)
Definition add_warnings (w : World) (ws : list Warning) : World :=
  {| warnings := warnings w ++ ws; files := files w; writable := writable w;
     stdout := stdout w |}.


(** What the [try] block of a file appends to an empty output: its block,
    or nothing when the block raises. *)
Definition item_block (c : Converter) (file_reporter : FileReporterItem)
    : list string :=
  match try_block c file_reporter [] with
  | Return block => block
  | Raise _ => []
  end.



(** The files whose [try] block returns. *)
Definition returns_block (c : Converter) (file_reporter : FileReporterItem)
    : Prop :=
  exists block, try_block c file_reporter [] = Return block.

(** The exceptions that no [except] clause of [get_lcov] names. *)
Definition uncaught (e : exn) : bool :=
  match e with
  | NoSource _ | NotPython _ => false
  | _ => true
  end.


(** *** More example data *)

(** An analysis function that also knows a Python file that does not
    parse, a file whose analysis fails otherwise, and falls back on
    [ex_analyze]. *)
Definition fx_analyze (m : Morf) : outcome Analysis :=
  let name := ex_morf_name m in
  if String.eqb name "broken.py" then
    Raise (NotPython "Couldn't parse 'broken.py' as Python source")
  else if String.eqb name "locked.py" then
    Raise (OtherError "PermissionError" "locked.py")
  else ex_analyze m.

Definition fx_converter (ignore : bool) (listing : list FileReporterItem)
    : Converter :=
  {| relative_path := false;
     cov_obj := {| config := {| report_include := None;
                                report_omit := None;
                                ignore_errors := ignore |};
                   _get_file_reporters := listing;
                   _analyze := fx_analyze |} |}.

Definition fx_broken : FileReporterItem := Plain (ex_reporter "broken.py" 4).
Definition fx_locked : FileReporterItem := Plain (ex_reporter "locked.py" 4).

(** A file name with a character outside ASCII (code 233). *)
Definition fx_accent_name : string := "caf" +:+ String "233"%char ".py".
Definition fx_accent : FileReporterItem := Plain (ex_reporter fx_accent_name 2).

(** A world in which the destination of the examples exists already. *)
Definition fx_world : World :=
  {| warnings := []; files := {[ "out.lcov"%string := "old report"%string ]};
     writable := fun _ => true; stdout := [] |}.

(** Case analysis on the membership of an element in an explicit list. *)
Ltac listing_cases :=
  repeat match goal with
         | H : _ ∈ _ :: _ |- _ => apply elem_of_cons in H as [->|H]
         | H : _ ∈ [] |- _ => by apply elem_of_nil in H
         end.

(** ** The inner loop *)

Lemma enumerate_fst {A} (l : list A) (start : positive) :
  map fst (enumerate start l) = pos_seq start (length l).
Proof.
  revert start. induction l as [|x l IH]; intros start; simpl; [done|].
  by rewrite IH.
Qed.

Lemma line_step_output (a : Analysis) (output : list string) (lines_hit : Z)
    (it : positive * TokenLine) :
  line_step a (output, lines_hit) it
  = (output ++ option_list (DA_of a (fst it)),
     lines_hit + (if is_hit a (fst it) then 1 else 0)).
Proof.
  unfold line_step, DA_of, is_hit.
  destruct (get_hits (fst it) a) as [hits|]; simpl.
  - destruct (0 <? hits); f_equal; lia.
  - by rewrite app_nil_r, Z.add_0_r.
Qed.

Lemma line_fold_spec (a : Analysis) (token_lines : list TokenLine) :
  forall (start : positive) (output : list string) (lines_hit : Z),
    fold_left (line_step a) (enumerate start token_lines) (output, lines_hit)
    = (output ++ omap (DA_of a) (pos_seq start (length token_lines)),
       lines_hit + Z.of_nat (length (List.filter (is_hit a)
                                      (pos_seq start (length token_lines))))).
Proof.
  induction token_lines as [|t tl IH]; intros start output lines_hit.
  - simpl. by rewrite app_nil_r, Z.add_0_r.
  - cbn [enumerate fold_left length pos_seq List.filter].
    rewrite line_step_output, IH. cbn [fst].
    f_equal.
    + rewrite <-app_assoc. f_equal. simpl. by destruct (DA_of a start).
    + destruct (is_hit a start); cbn [length]; lia.
Qed.

Lemma line_loop_spec (a : Analysis) (token_lines : list TokenLine)
    (output : list string) (lines_hit : Z) :
  line_loop a token_lines (output, lines_hit)
  = (output ++ omap (DA_of a) (physical_lines token_lines),
     lines_hit + Z.of_nat (length (List.filter (is_hit a)
                                     (physical_lines token_lines)))).
Proof. apply line_fold_spec. Qed.

(** ** Physical lines and sets of line numbers *)

Lemma elem_of_pos_seq (x start : positive) (n : nat) :
  x ∈ pos_seq start n <->
  (start <= x)%positive /\ (Pos.to_nat x < Pos.to_nat start + n)%nat.
Proof.
  revert start. induction n as [|n IH]; intros start; simpl.
  - rewrite elem_of_nil. lia.
  - rewrite elem_of_cons, IH. lia.
Qed.

Lemma elem_of_physical_lines (x : positive) (token_lines : list TokenLine) :
  x ∈ physical_lines token_lines <-> (Pos.to_nat x <= length token_lines)%nat.
Proof. unfold physical_lines. rewrite elem_of_pos_seq. lia. Qed.

Lemma pos_seq_sorted (start : positive) (n : nat) :
  StronglySorted Pos.lt (pos_seq start n).
Proof.
  revert start. induction n as [|n IH]; intros start; simpl; constructor.
  - apply IH.
  - apply Forall_forall. intros x Hx%elem_of_pos_seq. lia.
Qed.

Lemma StronglySorted_lt_NoDup (l : list positive) :
  StronglySorted Pos.lt l -> NoDup l.
Proof.
  induction 1 as [|x l _ IH Hx]; constructor; [|done].
  intros Hin. rewrite Forall_forall in Hx. specialize (Hx x Hin). lia.
Qed.

Lemma StronglySorted_filter_lt (P : positive -> Prop) `{!forall x, Decision (P x)}
    (l : list positive) :
  StronglySorted Pos.lt l -> StronglySorted Pos.le (filter P l).
Proof.
  induction 1 as [|x l _ IH Hx]; [constructor|].
  rewrite filter_cons. destruct (decide (P x)); [|done].
  constructor; [done|].
  apply Forall_forall. intros y [_ Hy]%list_elem_of_filter.
  rewrite Forall_forall in Hx. specialize (Hx y Hy). lia.
Qed.

Local Instance Pos_le_antisymm : AntiSymm (=) Pos.le.
Proof. intros x y ? ?. lia. Qed.

Local Instance Pos_le_transitive : Transitive Pos.le.
Proof. intros x y z ? ?. lia. Qed.

(** The physical lines that belong to a set all of whose elements are
    physical lines are the elements of the set in ascending order. *)
Lemma filter_physical_lines (s : gset positive) (token_lines : list TokenLine) :
  (forall x, x ∈ s -> (Pos.to_nat x <= length token_lines)%nat) ->
  filter (fun i => i ∈ s) (physical_lines token_lines) = ascending s.
Proof.
  intros Hs. unfold ascending.
  apply (Sorted_unique Pos.le).
  - apply StronglySorted_Sorted, StronglySorted_filter_lt, pos_seq_sorted.
  - apply (Sorted_merge_sort Pos.le).
  - rewrite merge_sort_Permutation. apply NoDup_Permutation.
    + apply NoDup_filter, StronglySorted_lt_NoDup, pos_seq_sorted.
    + apply NoDup_elements.
    + intros x. rewrite list_elem_of_filter, elem_of_elements,
        elem_of_physical_lines.
      split; [by intros [? _]|]. intros Hx. split; [done|]. by apply Hs.
Qed.

Lemma length_ascending (s : gset positive) : length (ascending s) = size s.
Proof. unfold ascending. by rewrite merge_sort_Permutation. Qed.

Lemma elem_of_ascending (x : positive) (s : gset positive) :
  x ∈ ascending s <-> x ∈ s.
Proof. unfold ascending. by rewrite merge_sort_Permutation, elem_of_elements. Qed.

Lemma max_line_ge (s : gset positive) (x : positive) :
  x ∈ s -> (x <= max_line s)%positive.
Proof.
  unfold max_line. rewrite <-elem_of_elements.
  induction (elements s) as [|y l IH]; simpl.
  - by rewrite elem_of_nil.
  - rewrite elem_of_cons. intros [->|Hx]; [lia|]. specialize (IH Hx). lia.
Qed.

Lemma bool_filter_as_filter {A} (f : A -> bool) (P : A -> Prop)
    `{!forall x, Decision (P x)} (l : list A) :
  (forall x, x ∈ l -> (f x = true <-> P x)) -> List.filter f l = filter P l.
Proof.
  induction l as [|x l IH]; intros Hf; [done|].
  simpl. rewrite filter_cons.
  pose proof (Hf x ltac:(left)) as Hx.
  rewrite IH by (intros y Hy; apply Hf; by right).
  destruct (f x), (decide (P x)) as [HP|HP]; try done.
  - destruct HP. by apply Hx.
  - apply Hx in HP. discriminate.
Qed.

Lemma omap_as_filter {A B} (f : A -> option B) (g : A -> B) (P : A -> Prop)
    `{!forall x, Decision (P x)} (l : list A) :
  (forall x, x ∈ l -> f x = if decide (P x) then Some (g x) else None) ->
  omap f l = map g (filter P l).
Proof.
  induction l as [|x l IH]; intros Hf; [done|].
  assert (omap f (x :: l) = option_list (f x) ++ omap f l) as ->
    by (simpl; by destruct (f x)).
  rewrite filter_cons.
  rewrite (Hf x ltac:(left)), IH by (intros y Hy; apply Hf; by right).
  by destruct (decide (P x)).
Qed.

(** ** [get_hits] *)

Lemma get_hits_missing (l : positive) (a : Analysis) :
  l ∈ missing a -> get_hits l a = Some 0.
Proof. intros H. unfold get_hits. by rewrite decide_True. Qed.

Lemma get_hits_not_statement (l : positive) (a : Analysis) :
  l ∉ missing a -> l ∉ statements a -> get_hits l a = None.
Proof. intros H1 H2. unfold get_hits. by rewrite decide_False, decide_True. Qed.

Lemma get_hits_executed (l : positive) (a : Analysis) :
  l ∉ missing a -> l ∈ statements a -> get_hits l a = Some 1.
Proof.
  intros H1 H2. unfold get_hits. rewrite decide_False by done.
  rewrite decide_False; [done|]. by intros H.
Qed.

Lemma get_hits_is_Some (l : positive) (a : Analysis) :
  is_Some (get_hits l a) <-> l ∈ missing a \/ l ∈ statements a.
Proof.
  unfold get_hits. repeat case_decide; rewrite ?is_Some_alt; tauto.
Qed.

Lemma get_hits_values (l : positive) (a : Analysis) (h : Z) :
  get_hits l a = Some h -> h = 0 \/ h = 1.
Proof. unfold get_hits. repeat case_decide; naive_solver. Qed.

(** ** Strings: the lines of a block told apart *)

Lemma string_app_cons (a : ascii) (s t : string) :
  String a s +:+ t = String a (s +:+ t).
Proof. reflexivity. Qed.

Lemma string_app_nil_l (t : string) : "" +:+ t = t.
Proof. reflexivity. Qed.

Lemma string_app_assoc (s t u : string) : (s +:+ t) +:+ u = s +:+ (t +:+ u).
Proof.
  induction s as [|a s IH]; [done|].
  rewrite !string_app_cons. by rewrite IH.
Qed.

Lemma string_rev_app_spec (s t : string) :
  String.rev_app s t = String.rev s +:+ t.
Proof.
  unfold String.rev. revert t. induction s as [|a s IH]; intros t; [done|].
  simpl. rewrite IH, (IH (String a "")), string_app_assoc.
  by rewrite string_app_cons, string_app_nil_l.
Qed.

Lemma string_rev_app (s t : string) :
  String.rev (s +:+ t) = String.rev t +:+ String.rev s.
Proof.
  unfold String.rev at 1. revert t.
  assert (forall s t u, String.rev_app (s +:+ t) u
                        = String.rev t +:+ String.rev_app s u) as H.
  { clear. intros s. induction s as [|a s IH]; intros t u.
    - rewrite string_app_nil_l. apply string_rev_app_spec.
    - rewrite string_app_cons. simpl. apply IH. }
  intros t. apply H.
Qed.

Lemma pretty_N_char_no_comma (x : N) : Ascii.eqb (pretty_N_char x) "," = false.
Proof. unfold pretty_N_char. by repeat case_match. Qed.

Lemma pretty_N_go_comma_free (x : N) (s : string) :
  comma_free s = true -> comma_free (pretty_N_go x s) = true.
Proof.
  revert s. induction (N.lt_wf_0 x) as [x _ IH]; intros s Hs.
  assert (x = 0 \/ 0 < x)%N as [->|Hx] by lia.
  - by rewrite pretty_N_go_0.
  - rewrite pretty_N_go_step by done. apply IH.
    + by apply N.div_lt.
    + simpl. by rewrite pretty_N_char_no_comma, Hs.
Qed.

Lemma pretty_positive_comma_free (p : positive) :
  comma_free (pretty p) = true.
Proof.
  unfold pretty, pretty_positive, pretty, pretty_N.
  case_decide; [done|]. by apply pretty_N_go_comma_free.
Qed.

(** Two texts cut at their first comma agree on the part before it. *)
Lemma comma_free_prefix_inj (s1 s2 r1 r2 : string) :
  comma_free s1 = true -> comma_free s2 = true ->
  s1 +:+ String "," r1 = s2 +:+ String "," r2 -> s1 = s2.
Proof.
  revert s2. induction s1 as [|a s1 IH]; intros [|b s2] H1 H2 Heq.
  - done.
  - rewrite string_app_nil_l, string_app_cons in Heq.
    injection Heq as <- _. simpl in H2. discriminate.
  - rewrite string_app_nil_l, string_app_cons in Heq.
    injection Heq as -> _. simpl in H1. discriminate.
  - rewrite !string_app_cons in Heq. simpl in H1, H2.
    apply andb_true_iff in H1 as [_ H1]. apply andb_true_iff in H2 as [_ H2].
    injection Heq as -> Heq. f_equal. by apply IH.
Qed.

Lemma DA_line_inj (i i' : positive) (h h' : Z) :
  DA_line i h = DA_line i' h' -> i = i'.
Proof.
  unfold DA_line. intros Heq. apply (inj (String.app "DA:")) in Heq.
  apply (inj pretty).
  eapply comma_free_prefix_inj; [apply pretty_positive_comma_free..|].
  exact Heq.
Qed.

Lemma string_prefix_nil (s : string) : String.prefix "" s = true.
Proof. by destruct s. Qed.

Lemma is_DA_line_DA (i : positive) (h : Z) : is_DA_line (DA_line i h) = true.
Proof.
  unfold is_DA_line, DA_line. rewrite !string_app_cons, string_app_nil_l.
  simpl. apply string_prefix_nil.
Qed.

Lemma is_DA_line_SF (name : string) : is_DA_line (SF_line name) = false.
Proof. reflexivity. Qed.

Lemma string_prefix_app (s t : string) : String.prefix s (s +:+ t) = true.
Proof.
  induction s as [|a s IH]; [apply string_prefix_nil|].
  rewrite string_app_cons. simpl. by destruct (ascii_dec a a).
Qed.

Lemma ends_with_app (suffix s : string) : ends_with suffix (s +:+ suffix) = true.
Proof. unfold ends_with. rewrite string_rev_app. apply string_prefix_app. Qed.

Lemma DA_line_split (i : positive) (h : Z) :
  DA_line i h = ("DA:" +:+ pretty i) +:+ ("," +:+ pretty h +:+ nl).
Proof. unfold DA_line. by rewrite string_app_assoc. Qed.

Lemma zero_hit_DA_line_0 (i : positive) : is_zero_hit_DA_line (DA_line i 0) = true.
Proof.
  unfold is_zero_hit_DA_line. rewrite is_DA_line_DA, DA_line_split.
  apply (ends_with_app ("," +:+ "0" +:+ nl)).
Qed.

Lemma zero_hit_DA_line_1 (i : positive) : is_zero_hit_DA_line (DA_line i 1) = false.
Proof.
  unfold is_zero_hit_DA_line. rewrite is_DA_line_DA, DA_line_split.
  unfold ends_with. rewrite (string_rev_app ("DA:" +:+ pretty i)). reflexivity.
Qed.

(** ** The monad *)

Lemma bind_Return {A B} (m : M A) (k : A -> M B) (w w' : World) (a : A) :
  m w = (w', Return a) -> (m ≫= k) w = k a w'.
Proof. intros H. unfold mbind, M_bind, bind. by rewrite H. Qed.

Lemma bind_Raise {A B} (m : M A) (k : A -> M B) (w w' : World) (e : exn) :
  m w = (w', Raise e) -> (m ≫= k) w = (w', Raise e).
Proof. intros H. unfold mbind, M_bind, bind. by rewrite H. Qed.

(** ** One file *)

Lemma try_block_analysed (c : Converter) (file_reporter : FileReporterItem)
    (a : Analysis) (token_lines : list TokenLine) (output : list string) :
  analysed c file_reporter a token_lines ->
  try_block c file_reporter output
  = Return (output ++ file_block c file_reporter a token_lines).
Proof.
  intros [Ha Ht]. unfold try_block. rewrite Ha, Ht, line_loop_spec.
  unfold file_block, emitted_filename. f_equal.
  rewrite Z.add_0_l. by rewrite <-!app_assoc.
Qed.

Lemma try_block_analyze_raises (c : Converter) (file_reporter : FileReporterItem)
    (e : exn) (output : list string) :
  _analyze (cov_obj c) (_unpack_morf file_reporter) = Raise e ->
  try_block c file_reporter output = Raise e.
Proof. intros Ha. unfold try_block. by rewrite Ha. Qed.

Lemma process_file_analysed (c : Converter) (file_reporter : FileReporterItem)
    (a : Analysis) (token_lines : list TokenLine) (output : list string)
    (w : World) :
  analysed c file_reporter a token_lines ->
  process_file c file_reporter output w
  = (w, Return (output ++ file_block c file_reporter a token_lines)).
Proof.
  intros H. unfold process_file. by rewrite (try_block_analysed _ _ _ _ _ H).
Qed.

(** The block of a file whose missed lines are statement lines and whose
    statement lines are physical lines. *)
Lemma DA_lines_ascending (a : Analysis) (token_lines : list TokenLine) :
  missing a ⊆ statements a ->
  (forall x, x ∈ statements a -> (Pos.to_nat x <= length token_lines)%nat) ->
  omap (DA_of a) (physical_lines token_lines)
  = map (fun l => DA_line l (if decide (l ∈ missing a) then 0 else 1))
        (ascending (statements a)).
Proof.
  intros Hsub Hlines. rewrite <-(filter_physical_lines _ token_lines) by done.
  apply omap_as_filter. intros x _. unfold DA_of, get_hits.
  repeat case_decide; try done. set_solver.
Qed.

Lemma hit_lines_count (a : Analysis) (token_lines : list TokenLine) :
  (forall x, x ∈ statements a -> (Pos.to_nat x <= length token_lines)%nat) ->
  length (List.filter (is_hit a) (physical_lines token_lines))
  = size (statements a ∖ missing a).
Proof.
  intros Hlines.
  rewrite (bool_filter_as_filter _ (fun i => i ∈ statements a ∖ missing a)).
  - rewrite filter_physical_lines; [apply length_ascending|].
    intros x [Hx _]%elem_of_difference. by apply Hlines.
  - intros x _. unfold is_hit. rewrite elem_of_difference.
    destruct (decide (x ∈ missing a)) as [Hm|Hm];
      [rewrite get_hits_missing by done
      |destruct (decide (x ∈ statements a)) as [Hs|Hs];
       [rewrite get_hits_executed by done
       |rewrite get_hits_not_statement by done]];
      [change (0 <? 0) with false|change (0 <? 1) with true|];
      simpl; intuition congruence.
Qed.

Lemma statement_lines_physical (a : Analysis) (token_lines : list TokenLine) :
  (Pos.to_nat (max_line (statements a)) <= length token_lines)%nat ->
  forall x, x ∈ statements a -> (Pos.to_nat x <= length token_lines)%nat.
Proof. intros Hmax x Hx%max_line_ge. lia. Qed.

(** ** Properties *)

(** C1: for a file that is analysed, whose statement-line set S is not
    empty, whose missed set M is a subset of S and whose count of token
    lines is at least the maximum of S, the iteration of the loop of
    [get_lcov] appends to the output, in this order: the line [TN:], the
    line [SF:<filename>], a line [DA:<line>,<hit>] for each element of S in
    ascending order, with hit 0 for the lines of M and 1 for the others,
    the line [LF:<|S|>], the line [LH:<|S \ M|>] and the line
    [end_of_record]; no exception is raised and nothing else changes. *)
Theorem C1_emitted_block (c : Converter) (file_reporter : FileReporterItem)
    (a : Analysis) (token_lines : list TokenLine) (output : list string)
    (w : World) :
  analysed c file_reporter a token_lines ->
  statements a ≠ ∅ ->
  missing a ⊆ statements a ->
  (Pos.to_nat (max_line (statements a)) <= length token_lines)%nat ->
  process_file c file_reporter output w
  = (w, Return (output
                ++ [TN_line; SF_line (emitted_filename c file_reporter)]
                ++ map (fun l => DA_line l (if decide (l ∈ missing a) then 0 else 1))
                       (ascending (statements a))
                ++ [LF_line (Z.of_nat (size (statements a)));
                    LH_line (Z.of_nat (size (statements a ∖ missing a)));
                    end_of_record])).
Proof.
  intros Han _ Hsub Hmax.
  pose proof (statement_lines_physical _ _ Hmax) as Hlines.
  rewrite (process_file_analysed _ _ _ _ _ _ Han). unfold file_block.
  by rewrite DA_lines_ascending, hit_lines_count.
Qed.

Lemma DA_of_inv (a : Analysis) (x l : positive) (h : Z) :
  DA_of a x = Some (DA_line l h) -> x = l /\ is_Some (get_hits l a).
Proof.
  unfold DA_of. destruct (get_hits x a) as [h'|] eqn:Hx; simpl; [|done].
  intros Heq. apply (inj Some), DA_line_inj in Heq as ->. by rewrite Hx.
Qed.

Lemma elem_of_DA_lines (a : Analysis) (token_lines : list TokenLine)
    (l : positive) :
  (exists h, DA_line l h ∈ omap (DA_of a) (physical_lines token_lines)) <->
  l ∈ physical_lines token_lines /\ is_Some (get_hits l a).
Proof.
  split.
  - intros [h [x [Hx Hda]]%list_elem_of_omap].
    apply DA_of_inv in Hda as [-> Hsome]. done.
  - intros [Hl [h Hh]]. exists h. apply list_elem_of_omap. exists l.
    split; [done|]. unfold DA_of. by rewrite Hh.
Qed.

(** C2: [get_hits] is a function of the line number and the analysis
    alone; read in the order of the specification, it is 0 for a line of
    the missed set, otherwise "not applicable" ([None]) for a line outside
    the statement set, otherwise 1; when the missed lines are statement
    lines, as the data model has it, it is [None] for every line outside
    the statement set.  In the loop over the physical lines,
    the body appends the [DA:] line of the line with that result, or
    nothing when the result is [None]; so, for every physical line, the
    loop emits a [DA:] line for it if and only if the result is not
    [None]. *)
Theorem C2_get_hits_drives_DA (a : Analysis) :
  (forall l, l ∈ missing a -> get_hits l a = Some 0) /\
  (forall l, l ∉ missing a -> l ∉ statements a -> get_hits l a = None) /\
  (forall l, l ∉ missing a -> l ∈ statements a -> get_hits l a = Some 1) /\
  (missing a ⊆ statements a ->
   forall l, l ∉ statements a -> get_hits l a = None) /\
  (forall (i : positive) (t : TokenLine) (output : list string) (lines_hit : Z),
      fst (line_step a (output, lines_hit) (i, t))
      = match get_hits i a with
        | Some hits => output ++ [DA_line i hits]
        | None => output
        end) /\
  (forall (token_lines : list TokenLine) (output : list string) (lines_hit : Z),
      exists das,
        fst (line_loop a token_lines (output, lines_hit)) = output ++ das /\
        forall i, i ∈ physical_lines token_lines ->
                  ((exists h, DA_line i h ∈ das) <-> get_hits i a ≠ None)).
Proof.
  split; [|split; [|split; [|split; [|split]]]].
  - intros l. apply get_hits_missing.
  - intros l. apply get_hits_not_statement.
  - intros l. apply get_hits_executed.
  - intros Hsub l Hl. apply get_hits_not_statement; [|done].
    intros Hm. by apply Hl, Hsub.
  - intros i t output lines_hit. unfold line_step. simpl.
    by destruct (get_hits i a).
  - intros token_lines output lines_hit.
    exists (omap (DA_of a) (physical_lines token_lines)).
    rewrite line_loop_spec. split; [done|].
    intros i Hi. rewrite elem_of_DA_lines, <-not_eq_None_Some. tauto.
Qed.

Lemma is_DA_line_LF (n : Z) : is_DA_line (LF_line n) = false.
Proof. reflexivity. Qed.

Lemma is_DA_line_LH (n : Z) : is_DA_line (LH_line n) = false.
Proof. reflexivity. Qed.

Lemma zero_hit_head (name : string) :
  List.filter is_zero_hit_DA_line [TN_line; SF_line name] = [].
Proof.
  unfold is_zero_hit_DA_line. cbn [List.filter].
  by rewrite is_DA_line_SF.
Qed.

Lemma zero_hit_tail (n m : Z) :
  List.filter is_zero_hit_DA_line [LF_line n; LH_line m; end_of_record] = [].
Proof.
  unfold is_zero_hit_DA_line. cbn [List.filter].
  by rewrite is_DA_line_LF, is_DA_line_LH.
Qed.

(** The zero-hit [DA:] lines among the lines written for a list of line
    numbers are those of the missed lines. *)
Lemma zero_hit_count (m : gset positive) (l : list positive) :
  length (List.filter is_zero_hit_DA_line
            (map (fun i => DA_line i (if decide (i ∈ m) then 0 else 1)) l))
  = length (filter (fun i => i ∈ m) l).
Proof.
  induction l as [|x l IH]; [done|].
  simpl. rewrite filter_cons. destruct (decide (x ∈ m)).
  - rewrite zero_hit_DA_line_0. simpl. by rewrite IH.
  - by rewrite zero_hit_DA_line_1.
Qed.

Lemma missed_among_statements (s m : gset positive) :
  m ⊆ s -> length (filter (fun i => i ∈ m) (ascending s)) = size m.
Proof.
  intros Hsub. unfold size, set_size. simpl. apply Permutation_length.
  apply NoDup_Permutation.
  - apply NoDup_filter. unfold ascending. rewrite merge_sort_Permutation.
    apply NoDup_elements.
  - apply NoDup_elements.
  - intros x. rewrite list_elem_of_filter, elem_of_ascending, elem_of_elements.
    split; [by intros [? _]|]. intros Hx. split; [done|]. by apply Hsub.
Qed.

(** C3, as the code has it: for a file that is analysed, with N statement
    lines of which M are missed, and all of whose statement lines are
    physical lines of the file (no statement line number exceeds the count
    of token lines), the [LH:] line of the block carries N - M and exactly
    M lines of the block are [DA:] lines with hit count 0. *)
Theorem C3_summary_counts (c : Converter) (file_reporter : FileReporterItem)
    (a : Analysis) (token_lines : list TokenLine) (output : list string)
    (w : World) :
  analysed c file_reporter a token_lines ->
  missing a ⊆ statements a ->
  (forall x, x ∈ statements a -> (Pos.to_nat x <= length token_lines)%nat) ->
  exists das,
    let block :=
      [TN_line; SF_line (emitted_filename c file_reporter)] ++ das
      ++ [LF_line (Z.of_nat (size (statements a)));
          LH_line (Z.of_nat (size (statements a)) - Z.of_nat (size (missing a)));
          end_of_record] in
    process_file c file_reporter output w = (w, Return (output ++ block)) /\
    Forall (fun s => is_DA_line s = true) das /\
    length (List.filter is_zero_hit_DA_line block) = size (missing a).
Proof.
  intros Han Hsub Hlines.
  exists (map (fun l => DA_line l (if decide (l ∈ missing a) then 0 else 1))
              (ascending (statements a))).
  cbv zeta. split; [|split].
  - rewrite (process_file_analysed _ _ _ _ _ _ Han). unfold file_block.
    rewrite DA_lines_ascending, hit_lines_count by done.
    rewrite size_difference by done.
    rewrite Nat2Z.inj_sub by (by apply subseteq_size). done.
  - apply Forall_forall. intros s [i [-> _]]%list_elem_of_fmap.
    apply is_DA_line_DA.
  - rewrite !List.filter_app, !length_app, zero_hit_count,
      missed_among_statements, zero_hit_head, zero_hit_tail by done.
    simpl. lia.
Qed.

(** When the [try] block raises, an iteration that returns leaves the
    output as it was. *)
Lemma process_file_raise_inv (c : Converter) (file_reporter : FileReporterItem)
    (e : exn) (output output' : list string) (w w' : World) :
  try_block c file_reporter output = Raise e ->
  process_file c file_reporter output w = (w', Return output') ->
  output' = output.
Proof.
  intros Ht. unfold process_file. rewrite Ht.
  destruct e as [msg|msg|msg|msg|msg|msg|name msg]; try (intros [= _ _]; done).
  - destruct (negb (ignore_errors (config (cov_obj c)))); intros [= _ H]; done.
  - destruct file_reporter as [fr|fr morf]; [|intros [= _ _]; done].
    unfold item_should_be_python, item_filename, mbind, M_bind, bind, mret,
      M_ret, ret, raise, _warn.
    destruct (should_be_python fr), (ignore_errors (config (cov_obj c)));
      intros [= _ H]; done.
Qed.

Lemma not_DA_line_neq (s : string) (l : positive) (h : Z) :
  is_DA_line s = false -> DA_line l h ≠ s.
Proof. intros Hs <-. by rewrite is_DA_line_DA in Hs. Qed.

(** C4, as the code has it: for every file and every line number that is
    absent from the statement-line set and from the missed-lines set of the
    file, the lines written for the file hold no [DA:] line for that line
    number, whatever the token lines of the file. *)
Theorem C4_no_DA_outside_sets (c : Converter) (file_reporter : FileReporterItem)
    (a : Analysis) (l : positive) (output output' : list string) (w w' : World) :
  _analyze (cov_obj c) (_unpack_morf file_reporter) = Return a ->
  l ∉ statements a ->
  l ∉ missing a ->
  process_file c file_reporter output w = (w', Return output') ->
  exists block, output' = output ++ block /\ forall h, DA_line l h ∉ block.
Proof.
  intros Ha Hs Hm Hrun.
  destruct (source_token_lines (_unpack_file_reporter file_reporter))
    as [token_lines|e] eqn:Ht.
  - rewrite (process_file_analysed c file_reporter a token_lines) in Hrun
      by done.
    injection Hrun as _ <-. eexists; split; [done|].
    intros h. unfold file_block. rewrite !elem_of_app, !elem_of_cons, elem_of_nil.
    intros [[H|[H|[]]]|[H|[H|[H|[H|[]]]]]].
    + by apply not_DA_line_neq in H.
    + by apply not_DA_line_neq in H.
    + assert (is_Some (get_hits l a)) as Hsome.
      { eapply elem_of_DA_lines. by exists h. }
      apply get_hits_is_Some in Hsome. tauto.
    + by apply not_DA_line_neq in H.
    + by apply not_DA_line_neq in H.
    + by apply not_DA_line_neq in H.
  - assert (try_block c file_reporter output = Raise e) as Hraise.
    { unfold try_block. by rewrite Ha, Ht. }
    rewrite (process_file_raise_inv _ _ _ _ _ _ _ Hraise Hrun).
    exists []. rewrite app_nil_r. split; [done|]. intros h. apply not_elem_of_nil.
Qed.

(** ** The loop over the files *)

Lemma process_file_no_source (c : Converter) (file_reporter : FileReporterItem)
    (msg : string) (output : list string) (w : World) :
  ignore_errors (config (cov_obj c)) = true ->
  _analyze (cov_obj c) (_unpack_morf file_reporter) = Raise (NoSource msg) ->
  process_file c file_reporter output w = (w, Return output).
Proof.
  intros Hign Ha. unfold process_file.
  by rewrite (try_block_analyze_raises _ _ _ _ Ha), Hign.
Qed.

Lemma for_each_file_cons (c : Converter) (file_reporter : FileReporterItem)
    (frs : list FileReporterItem) (output output' : list string) (w w' : World) :
  process_file c file_reporter output w = (w', Return output') ->
  for_each_file c (file_reporter :: frs) output w = for_each_file c frs output' w'.
Proof. intros H. simpl. by rewrite (bind_Return _ _ _ _ _ H). Qed.

Section Properties.

Variable glob_match : string -> string -> bool.
Variable reporter_lt : FileReporterItem -> FileReporterItem -> bool.

Lemma get_file_reporters_not_nil (c : Converter) (w : World) :
  filtered_file_reporters glob_match c ≠ [] ->
  get_file_reporters glob_match c w
  = (w, Return (filtered_file_reporters glob_match c)).
Proof.
  intros H. unfold get_file_reporters.
  by destruct (filtered_file_reporters glob_match c).
Qed.

Lemma get_file_reporters_nil (c : Converter) (w : World) :
  filtered_file_reporters glob_match c = [] ->
  get_file_reporters glob_match c w
  = (w, Raise (CoverageException "No data to report.")).
Proof. intros H. unfold get_file_reporters. by rewrite H. Qed.

Lemma get_lcov_lines_run (c : Converter) (w : World) :
  filtered_file_reporters glob_match c ≠ [] ->
  get_lcov_lines glob_match reporter_lt c w
  = for_each_file c (sorted reporter_lt (filtered_file_reporters glob_match c))
      [] w.
Proof.
  intros H. unfold get_lcov_lines.
  by rewrite (bind_Return _ _ _ _ _ (get_file_reporters_not_nil c w H)).
Qed.

(** C5: with [ignore_errors] enabled and three eligible files, of which one
    raises [NoSource] in its analysis while the other two are analysed,
    [get_lcov] raises nothing, warns of nothing, and returns the blocks of
    the two analysed files, in the order of the iteration, and no text
    from the third. *)
Theorem C5_missing_source_skipped (c : Converter) (w : World)
    (l1 l2 : list FileReporterItem) (bad e1 e2 : FileReporterItem)
    (msg : string) (a1 a2 : Analysis) (t1 t2 : list TokenLine) :
  ignore_errors (config (cov_obj c)) = true ->
  sorted reporter_lt (filtered_file_reporters glob_match c) = l1 ++ bad :: l2 ->
  l1 ++ l2 = [e1; e2] ->
  _analyze (cov_obj c) (_unpack_morf bad) = Raise (NoSource msg) ->
  analysed c e1 a1 t1 ->
  analysed c e2 a2 t2 ->
  get_lcov_lines glob_match reporter_lt c w
  = (w, Return (file_block c e1 a1 t1 ++ file_block c e2 a2 t2)) /\
  get_lcov glob_match reporter_lt c w
  = (w, Return (String.concat ""
                  (file_block c e1 a1 t1 ++ file_block c e2 a2 t2))).
Proof.
  intros Hign Hsorted Hl Hbad H1 H2.
  assert (get_lcov_lines glob_match reporter_lt c w
          = (w, Return (file_block c e1 a1 t1 ++ file_block c e2 a2 t2))) as Hlines.
  { rewrite get_lcov_lines_run.
    2: { intros Hnil. rewrite Hnil in Hsorted. simpl in Hsorted.
         by destruct l1. }
    rewrite Hsorted.
    pose proof (fun out w => process_file_no_source c bad msg out w Hign Hbad) as Pb.
    pose proof (fun out w => process_file_analysed c e1 a1 t1 out w H1) as P1.
    pose proof (fun out w => process_file_analysed c e2 a2 t2 out w H2) as P2.
    destruct l1 as [|x1 [|x2 [|x3 l1]]]; simpl in Hl; simplify_eq; cbn [app].
    - rewrite (for_each_file_cons _ _ _ _ _ _ _ (Pb _ _)),
        (for_each_file_cons _ _ _ _ _ _ _ (P1 _ _)),
        (for_each_file_cons _ _ _ _ _ _ _ (P2 _ _)). done.
    - rewrite (for_each_file_cons _ _ _ _ _ _ _ (P1 _ _)),
        (for_each_file_cons _ _ _ _ _ _ _ (Pb _ _)),
        (for_each_file_cons _ _ _ _ _ _ _ (P2 _ _)). done.
    - rewrite (for_each_file_cons _ _ _ _ _ _ _ (P1 _ _)),
        (for_each_file_cons _ _ _ _ _ _ _ (P2 _ _)),
        (for_each_file_cons _ _ _ _ _ _ _ (Pb _ _)). done. }
  split; [done|]. unfold get_lcov.
  by rewrite (bind_Return _ _ _ _ _ Hlines).
Qed.

(** C6: if no file remains after the include and the omit filter,
    [get_file_reporters] raises [CoverageException] with the message
    [No data to report.], and so do [get_lcov], [print_lcov] and
    [create_lcov]: no report text is returned, printed or written, and the
    world is left as it was. *)
Theorem C6_empty_report (c : Converter) (w : World) (path : string) :
  filtered_file_reporters glob_match c = [] ->
  get_file_reporters glob_match c w
  = (w, Raise (CoverageException "No data to report.")) /\
  get_lcov glob_match reporter_lt c w
  = (w, Raise (CoverageException "No data to report.")) /\
  print_lcov glob_match reporter_lt c w
  = (w, Raise (CoverageException "No data to report.")) /\
  create_lcov glob_match reporter_lt c path w
  = (w, Raise (CoverageException "No data to report.")).
Proof.
  intros H. pose proof (get_file_reporters_nil c w H) as Hfr.
  assert (get_lcov glob_match reporter_lt c w
          = (w, Raise (CoverageException "No data to report."))) as Hlcov.
  { unfold get_lcov, get_lcov_lines.
    by rewrite (bind_Raise _ _ _ _ _ (bind_Raise _ _ _ _ _ Hfr)). }
  repeat split; [done|done|..].
  - unfold print_lcov. by rewrite (bind_Raise _ _ _ _ _ Hlcov).
  - unfold create_lcov. by rewrite (bind_Raise _ _ _ _ _ Hlcov).
Qed.

Lemma matcher_match_true (pats : list string) (path : string) :
  matcher_match glob_match pats path = true <->
  exists p, p ∈ pats /\ glob_match p path = true.
Proof.
  unfold matcher_match. rewrite existsb_exists.
  split; intros [p [Hp Hm]]; exists p; split; try done; by apply list_elem_of_In.
Qed.

Lemma patterns_truthy (o : option (list string)) (p : string) :
  p ∈ patterns o -> truthy o = true.
Proof.
  destruct o as [[|q l]|]; simpl; [|done|]; intros H; by apply elem_of_nil in H.
Qed.

Lemma filtered_app (c : Converter) (l1 l2 : list FileReporterItem) :
  filtered_file_reporters glob_match (with_listing c (l1 ++ l2))
  = filtered_file_reporters glob_match (with_listing c l1)
    ++ filtered_file_reporters glob_match (with_listing c l2).
Proof.
  unfold filtered_file_reporters. simpl.
  destruct (truthy (report_include _)), (truthy (report_omit _));
    by rewrite ?List.filter_app.
Qed.

Lemma filtered_omitted (c : Converter) (file_reporter : FileReporterItem) :
  (exists q, q ∈ patterns (report_omit (config (cov_obj c))) /\
             glob_match q (filename (_unpack_file_reporter file_reporter)) = true) ->
  filtered_file_reporters glob_match (with_listing c [file_reporter]) = [].
Proof.
  intros Homit. pose proof Homit as [q [Hq _]].
  apply matcher_match_true in Homit.
  unfold filtered_file_reporters. simpl.
  rewrite (patterns_truthy _ _ Hq).
  destruct (truthy (report_include _)); simpl.
  - destruct (matcher_match glob_match (patterns (report_include _)) _); simpl;
      [|done]. by rewrite Homit.
  - by rewrite Homit.
Qed.

Lemma filtered_elem_of (c : Converter) (file_reporter : FileReporterItem) :
  truthy (report_omit (config (cov_obj c))) = true ->
  file_reporter ∈ filtered_file_reporters glob_match c ->
  matcher_match glob_match (patterns (report_omit (config (cov_obj c))))
    (filename (_unpack_file_reporter file_reporter)) = false.
Proof.
  intros Htruthy. unfold filtered_file_reporters. rewrite Htruthy.
  rewrite list_elem_of_In, filter_In. intros [_ H].
  by apply negb_true_iff in H.
Qed.

Lemma for_each_file_with_listing (c : Converter) (l frs : list FileReporterItem) :
  forall output w,
    for_each_file (with_listing c l) frs output w = for_each_file c frs output w.
Proof.
  induction frs as [|fr frs IH]; intros output w; [done|].
  simpl. unfold mbind, M_bind, bind.
  change (process_file (with_listing c l) fr output w)
    with (process_file c fr output w).
  destruct (process_file c fr output w) as [w' [output'|e]]; [apply IH|done].
Qed.

(** [get_lcov] reads the listing through the filtered listing only. *)
Lemma get_lcov_lines_filtered (c : Converter) (l1 l2 : list FileReporterItem)
    (w : World) :
  filtered_file_reporters glob_match (with_listing c l1)
  = filtered_file_reporters glob_match (with_listing c l2) ->
  get_lcov_lines glob_match reporter_lt (with_listing c l1) w
  = get_lcov_lines glob_match reporter_lt (with_listing c l2) w.
Proof.
  intros H. unfold get_lcov_lines, get_file_reporters. rewrite H.
  destruct (filtered_file_reporters glob_match (with_listing c l2)); [done|].
  unfold mbind, M_bind, bind, mret, M_ret, ret.
  by rewrite !for_each_file_with_listing.
Qed.

Lemma with_listing_self (c : Converter) :
  with_listing c (_get_file_reporters (cov_obj c)) = c.
Proof. by destruct c as [r [cfg l an]]. Qed.

(** C7: a file whose path matches a configured include pattern and a
    configured omit pattern is not in the list of eligible files (the omit
    filter runs after the include filter and drops it), and it has no part
    in the report: the report is the one of the listing without the
    file. *)
Theorem C7_omit_takes_precedence (c : Converter)
    (file_reporter : FileReporterItem) :
  let path := filename (_unpack_file_reporter file_reporter) in
  (exists p, p ∈ patterns (report_include (config (cov_obj c))) /\
             glob_match p path = true) ->
  (exists q, q ∈ patterns (report_omit (config (cov_obj c))) /\
             glob_match q path = true) ->
  (file_reporter ∉ filtered_file_reporters glob_match c) /\
  (forall w w' l, get_file_reporters glob_match c w = (w', Return l) ->
                  file_reporter ∉ l) /\
  (forall l1 l2 w,
      _get_file_reporters (cov_obj c) = l1 ++ file_reporter :: l2 ->
      get_lcov glob_match reporter_lt c w
      = get_lcov glob_match reporter_lt (with_listing c (l1 ++ l2)) w).
Proof.
  intros path _ Homit.
  assert (file_reporter ∉ filtered_file_reporters glob_match c) as Hnot.
  { intros Hin. pose proof Homit as [q [Hq _]].
    apply filtered_elem_of in Hin; [|by eapply patterns_truthy].
    apply matcher_match_true in Homit. fold path in Hin. congruence. }
  split; [done|split].
  - intros w w' l. unfold get_file_reporters.
    destruct (filtered_file_reporters glob_match c) eqn:Hf; [done|].
    by intros [= _ <-].
  - intros l1 l2 w Hl. rewrite <-(with_listing_self c) at 1. rewrite Hl.
    unfold get_lcov, mbind, M_bind, bind.
    rewrite (get_lcov_lines_filtered c (l1 ++ file_reporter :: l2) (l1 ++ l2));
      [done|].
    rewrite (filtered_app c l1 (file_reporter :: l2)),
      (filtered_app c [file_reporter] l2 : filtered_file_reporters _
         (with_listing c (file_reporter :: l2)) = _),
      (filtered_omitted c file_reporter Homit), filtered_app. done.
Qed.

(** *** The order of the iteration *)

Lemma elem_of_sorted_insert (x z : FileReporterItem) (l : list FileReporterItem) :
  z ∈ sorted_insert reporter_lt x l <-> z = x \/ z ∈ l.
Proof.
  induction l as [|y l IH]; simpl.
  - rewrite elem_of_cons. tauto.
  - destruct (reporter_lt y x); rewrite !elem_of_cons, ?IH; tauto.
Qed.

Lemma elem_of_sorted (z : FileReporterItem) (l : list FileReporterItem) :
  z ∈ sorted reporter_lt l <-> z ∈ l.
Proof.
  induction l as [|x l IH]; simpl; [done|].
  rewrite elem_of_sorted_insert, elem_of_cons, IH. tauto.
Qed.

Lemma sorted_insert_comm (P : FileReporterItem -> Prop)
    (x y : FileReporterItem) (l : list FileReporterItem) :
  strict_total_on reporter_lt P ->
  P x -> P y -> (forall z, z ∈ l -> P z) ->
  sorted_insert reporter_lt x (sorted_insert reporter_lt y l)
  = sorted_insert reporter_lt y (sorted_insert reporter_lt x l).
Proof.
  intros (Htrans & Hasym & Htotal) Hx Hy.
  assert (sorted_insert reporter_lt x [y] = sorted_insert reporter_lt y [x])
    as Hbase.
  { simpl. destruct (reporter_lt y x) eqn:Hyx.
    - by rewrite (Hasym y x Hy Hx Hyx).
    - destruct (reporter_lt x y) eqn:Hxy; [done|].
      destruct (Htotal x y Hx Hy) as [?|[->|?]]; congruence. }
  induction l as [|z l IH]; intros Hl; [done|].
  pose proof (Hl z ltac:(left)) as Hz.
  assert (forall z', z' ∈ l -> P z') as Hl' by (intros z' ?; apply Hl; by right).
  simpl. destruct (reporter_lt z y) eqn:Hzy, (reporter_lt z x) eqn:Hzx; simpl;
    rewrite ?Hzy, ?Hzx.
  - f_equal. by apply IH.
  - destruct (reporter_lt x y) eqn:Hxy'; [done|].
    destruct (Htotal x y Hx Hy) as [?|[->|Hyx]]; [congruence..|].
    rewrite (Htrans z y x Hz Hy Hx Hzy Hyx) in Hzx. done.
  - destruct (reporter_lt y x) eqn:Hyx'; [done|].
    destruct (Htotal x y Hx Hy) as [Hxy'|[->|?]]; [|congruence..].
    rewrite (Htrans z x y Hz Hx Hy Hzx Hxy') in Hzy. done.
  - simpl in Hbase. destruct (reporter_lt y x), (reporter_lt x y);
      simplify_eq; by rewrite ?Hzy, ?Hzx.
Qed.

Lemma sorted_Permutation (P : FileReporterItem -> Prop)
    (l1 l2 : list FileReporterItem) :
  strict_total_on reporter_lt P ->
  l1 ≡ₚ l2 -> (forall x, x ∈ l1 -> P x) ->
  sorted reporter_lt l1 = sorted reporter_lt l2.
Proof.
  intros Hord Hperm. induction Hperm as [|x l l' _ IH|x y l|l l' l'' H1 IH1 _ IH2];
    intros HP.
  - done.
  - simpl. rewrite IH; [done|]. intros z ?. apply HP. by right.
  - simpl. apply (sorted_insert_comm P); [done|..].
    + apply HP. by left.
    + apply HP. right. by left.
    + intros z Hz. apply (proj1 (elem_of_sorted z l)) in Hz.
      apply HP. right. by right.
  - rewrite IH1 by done. apply IH2. intros x Hx. apply HP. by rewrite H1.
Qed.

Lemma bool_filter_Permutation {A} (f : A -> bool) (l1 l2 : list A) :
  l1 ≡ₚ l2 -> List.filter f l1 ≡ₚ List.filter f l2.
Proof.
  induction 1 as [|x l l' _ IH|x y l|l l' l'' _ IH1 _ IH2]; simpl.
  - done.
  - destruct (f x); by rewrite IH.
  - destruct (f x), (f y); try done. apply perm_swap.
  - by rewrite IH1.
Qed.

Lemma filtered_Permutation (c : Converter) (l1 l2 : list FileReporterItem) :
  l1 ≡ₚ l2 ->
  filtered_file_reporters glob_match (with_listing c l1)
  ≡ₚ filtered_file_reporters glob_match (with_listing c l2).
Proof.
  intros H. unfold filtered_file_reporters. simpl.
  destruct (truthy (report_include _)), (truthy (report_omit _));
    by repeat apply bool_filter_Permutation.
Qed.

Lemma filtered_subseteq (c : Converter) (x : FileReporterItem) :
  x ∈ filtered_file_reporters glob_match c -> x ∈ _get_file_reporters (cov_obj c).
Proof.
  unfold filtered_file_reporters.
  destruct (truthy (report_include _)), (truthy (report_omit _));
    rewrite !list_elem_of_In, ?filter_In; tauto.
Qed.

(** *** The outcome does not depend on the world *)

Lemma process_file_outcome (c : Converter) (file_reporter : FileReporterItem)
    (output : list string) (w1 w2 : World) :
  snd (process_file c file_reporter output w1)
  = snd (process_file c file_reporter output w2).
Proof.
  unfold process_file.
  destruct (try_block c file_reporter output) as [output'|e]; [done|].
  destruct e as [msg|msg|msg|msg|msg|msg|name msg]; try done.
  - by destruct (negb (ignore_errors (config (cov_obj c)))).
  - destruct file_reporter as [fr|fr morf]; [|done].
    unfold item_should_be_python, item_filename, mbind, M_bind, bind, mret,
      M_ret, ret, raise, _warn.
    by destruct (should_be_python fr), (ignore_errors (config (cov_obj c))).
Qed.

Lemma for_each_file_outcome (c : Converter) (frs : list FileReporterItem) :
  forall (output : list string) (w1 w2 : World),
    snd (for_each_file c frs output w1) = snd (for_each_file c frs output w2).
Proof.
  induction frs as [|fr frs IH]; intros output w1 w2; [done|].
  simpl. unfold mbind, M_bind, bind.
  pose proof (process_file_outcome c fr output w1 w2) as H.
  destruct (process_file c fr output w1) as [w1' [o1|e1]],
    (process_file c fr output w2) as [w2' [o2|e2]]; simpl in H; simplify_eq.
  - apply IH.
  - done.
Qed.

Lemma get_lcov_outcome (c : Converter) (w1 w2 : World) :
  snd (get_lcov glob_match reporter_lt c w1)
  = snd (get_lcov glob_match reporter_lt c w2).
Proof.
  unfold get_lcov, get_lcov_lines, get_file_reporters.
  destruct (filtered_file_reporters glob_match c) as [|x l]; [done|].
  unfold mbind, M_bind, bind, mret, M_ret, ret.
  pose proof (for_each_file_outcome c (sorted reporter_lt (x :: l)) [] w1 w2) as H.
  destruct (for_each_file c (sorted reporter_lt (x :: l)) [] w1) as [w1' [o1|e1]],
    (for_each_file c (sorted reporter_lt (x :: l)) [] w2) as [w2' [o2|e2]];
    simpl in H; by simplify_eq.
Qed.

(** C8: report generation is deterministic.  For a fixed provider, the
    outcome of [get_lcov] (the report text or the exception) is the same in
    two runs, whatever the state of the world at each run.  It is also the
    same when the provider lists the files of the dataset in another
    order, provided [<] is a strict total order on the files of the
    dataset: the files are iterated in sorted order. *)
Theorem C8_deterministic (c : Converter) :
  (forall w1 w2,
      snd (get_lcov glob_match reporter_lt c w1)
      = snd (get_lcov glob_match reporter_lt c w2)) /\
  (forall l1 l2 w1 w2,
      l1 ≡ₚ l2 ->
      strict_total_on reporter_lt (fun x => x ∈ l1) ->
      snd (get_lcov glob_match reporter_lt (with_listing c l1) w1)
      = snd (get_lcov glob_match reporter_lt (with_listing c l2) w2)).
Proof.
  split; [apply get_lcov_outcome|].
  intros l1 l2 w1 w2 Hperm Hord.
  rewrite (get_lcov_outcome _ w1 w2). f_equal.
  unfold get_lcov, get_lcov_lines, get_file_reporters.
  pose proof (filtered_Permutation c l1 l2 Hperm) as Hf.
  assert (sorted reporter_lt (filtered_file_reporters glob_match (with_listing c l1))
          = sorted reporter_lt (filtered_file_reporters glob_match (with_listing c l2)))
    as Hsorted.
  { apply (sorted_Permutation (fun x => x ∈ l1)); [done..|].
    intros x Hx. by apply filtered_subseteq in Hx. }
  destruct (filtered_file_reporters glob_match (with_listing c l1)) as [|x1 f1],
    (filtered_file_reporters glob_match (with_listing c l2)) as [|x2 f2].
  - done.
  - by apply Permutation_nil_cons in Hf.
  - symmetry in Hf. by apply Permutation_nil_cons in Hf.
  - unfold mbind, M_bind, bind, mret, M_ret, ret.
    by rewrite Hsorted, !for_each_file_with_listing.
Qed.

(** *** Files *)

Lemma process_file_files (c : Converter) (file_reporter : FileReporterItem)
    (output : list string) (w : World) :
  files (fst (process_file c file_reporter output w)) = files w.
Proof.
  unfold process_file.
  destruct (try_block c file_reporter output) as [output'|e]; [done|].
  destruct e as [msg|msg|msg|msg|msg|msg|name msg]; try done.
  - by destruct (negb (ignore_errors (config (cov_obj c)))).
  - destruct file_reporter as [fr|fr morf]; [|done].
    unfold item_should_be_python, item_filename, mbind, M_bind, bind, mret,
      M_ret, ret, raise, _warn.
    by destruct (should_be_python fr), (ignore_errors (config (cov_obj c))).
Qed.

Lemma for_each_file_files (c : Converter) (frs : list FileReporterItem) :
  forall (output : list string) (w : World),
    files (fst (for_each_file c frs output w)) = files w.
Proof.
  induction frs as [|fr frs IH]; intros output w; [done|].
  simpl. unfold mbind, M_bind, bind.
  pose proof (process_file_files c fr output w) as H.
  destruct (process_file c fr output w) as [w' [output'|e]]; simpl in H.
  - by rewrite IH.
  - done.
Qed.

Lemma get_lcov_files (c : Converter) (w : World) :
  files (fst (get_lcov glob_match reporter_lt c w)) = files w.
Proof.
  unfold get_lcov, get_lcov_lines, get_file_reporters.
  destruct (filtered_file_reporters glob_match c) as [|x l]; [done|].
  unfold mbind, M_bind, bind, mret, M_ret, ret.
  pose proof (for_each_file_files c (sorted reporter_lt (x :: l)) [] w) as H.
  by destruct (for_each_file c (sorted reporter_lt (x :: l)) [] w)
    as [w' [output|e]].
Qed.

(** C9: [create_lcov] builds the whole report text before it opens the
    destination: if the construction of the report raises, [create_lcov]
    raises the same exception without opening the destination, and the
    files are what they were before the call. *)
Theorem C9_no_partial_file (c : Converter) (output_file_path : string)
    (w w' : World) (e : exn) :
  get_lcov glob_match reporter_lt c w = (w', Raise e) ->
  create_lcov glob_match reporter_lt c output_file_path w = (w', Raise e) /\
  files (fst (create_lcov glob_match reporter_lt c output_file_path w))
  = files w.
Proof.
  intros H. unfold create_lcov. rewrite (bind_Raise _ _ _ _ _ H).
  split; [done|]. simpl. pose proof (get_lcov_files c w) as Hf.
  by rewrite H in Hf.
Qed.

(** *** Sources that are not Python *)

(** For a reporter listed alone, a source that is not Python and should
    not be is passed over in silence, whatever [ignore_errors] says. *)
Lemma process_file_not_python_plain (c : Converter) (fr : PythonFileReporter)
    (msg : string) (output : list string) (w : World) :
  _analyze (cov_obj c) (MorfReporter fr) = Raise (NotPython msg) ->
  should_be_python fr = false ->
  process_file c (Plain fr) output w = (w, Return output).
Proof.
  intros Ha Hs. unfold process_file.
  rewrite (try_block_analyze_raises c (Plain fr) _ _ Ha).
  unfold item_should_be_python, mbind, M_bind, bind, mret, M_ret, ret.
  by rewrite Hs.
Qed.

(** C10, what the code does on a listing of tuples: when the analysis of
    the morf of a tuple raises [NotPython], the [except] clause asks the
    tuple itself for [should_be_python()], and the iteration raises
    [AttributeError], whatever the reporter of the tuple answers and
    whatever [ignore_errors] says. *)
Theorem C10_tuple_not_python_raises (c : Converter) (fr : PythonFileReporter)
    (morf msg : string) (output : list string) (w : World) :
  _analyze (cov_obj c) (MorfName morf) = Raise (NotPython msg) ->
  process_file c (Tupled fr morf) output w
  = (w, Raise (AttributeError
                 "'tuple' object has no attribute 'should_be_python'")).
Proof.
  intros Ha. unfold process_file.
  by rewrite (try_block_analyze_raises c (Tupled fr morf) _ _ Ha).
Qed.

End Properties.

(** ** Worked examples *)

(** The block of the specification's example: [a.py] with statement lines
    1, 2, 3, 5 and missed line 2. *)
Example get_lcov_a_py :
  snd (get_lcov ex_glob ex_lt (ex_converter None None false [ex_a]) ex_world)
  = Return ("TN:" +:+ nl +:+ "SF:a.py" +:+ nl +:+ "DA:1,1" +:+ nl
            +:+ "DA:2,0" +:+ nl +:+ "DA:3,1" +:+ nl +:+ "DA:5,1" +:+ nl
            +:+ "LF:4" +:+ nl +:+ "LH:3" +:+ nl +:+ "end_of_record" +:+ nl).
Proof. vm_compute. reflexivity. Qed.

(** C1 at the example of the specification. *)
Lemma C1_witness :
  process_file (ex_converter None None false [ex_a]) ex_a [] ex_world
  = (ex_world,
     Return [TN_line; SF_line "a.py"; DA_line 1 1; DA_line 2 0; DA_line 3 1;
             DA_line 5 1; LF_line 4; LH_line 3; end_of_record]).
Proof.
  rewrite (C1_emitted_block (ex_converter None None false [ex_a]) ex_a
             (ex_analysis [1; 2; 3; 5] [2])%positive (replicate 5 []) [] ex_world).
  - vm_compute. reflexivity.
  - split; reflexivity.
  - compute_done.
  - compute_done.
  - vm_compute. lia.
Defined.

(** C3 at the example of the specification: [LH:3] and one zero-hit
    line. *)
Lemma C3_witness :
  exists das,
    let block := [TN_line; SF_line "a.py"] ++ das
                 ++ [LF_line 4; LH_line (4 - 1); end_of_record] in
    process_file (ex_converter None None false [ex_a]) ex_a [] ex_world
    = (ex_world, Return ([] ++ block)) /\
    Forall (fun s => is_DA_line s = true) das /\
    length (List.filter is_zero_hit_DA_line block) = 1%nat.
Proof.
  apply (C3_summary_counts (ex_converter None None false [ex_a]) ex_a
           (ex_analysis [1; 2; 3; 5] [2])%positive (replicate 5 []) [] ex_world).
  - split; reflexivity.
  - compute_done.
  - intros x Hx. simpl in Hx. set_unfold in Hx. simpl. lia.
Defined.

(** C3 as stated fails on a file with a statement line beyond its
    physical lines: [short.py] has statement lines 1, 5, 6 (so N = 3),
    missed line 5 (so M = 1) and one physical line.  The block carries
    [LH:1], not [LH:2], and no zero-hit [DA:] line. *)
Lemma C3_counterexample :
  let a := (ex_analysis [1; 5; 6] [5])%positive in
  let block := [TN_line; SF_line "short.py"; DA_line 1 1;
                LF_line 3; LH_line 1; end_of_record] in
  analysed (ex_converter None None false [ex_short]) ex_short a (replicate 1 []) /\
  missing a ⊆ statements a /\
  process_file (ex_converter None None false [ex_short]) ex_short [] ex_world
  = (ex_world, Return block) /\
  Z.of_nat (size (statements a)) - Z.of_nat (size (missing a)) = 2 /\
  LH_line 1 ≠ LH_line 2 /\
  size (missing a) = 1%nat /\
  length (List.filter is_zero_hit_DA_line block) = 0%nat.
Proof.
  cbv zeta. split; [by split|]. split; [compute_done|].
  split; [by vm_compute|]. repeat split; by vm_compute.
Qed.

(** C4 at line 4 of the example, neither a statement line nor a missed
    line. *)
Lemma C4_witness :
  exists block,
    [TN_line; SF_line "a.py"; DA_line 1 1; DA_line 2 0; DA_line 3 1;
     DA_line 5 1; LF_line 4; LH_line 3; end_of_record] = [] ++ block /\
    forall h, DA_line 4 h ∉ block.
Proof.
  apply (C4_no_DA_outside_sets (ex_converter None None false [ex_a]) ex_a
           (ex_analysis [1; 2; 3; 5] [2])%positive 4%positive [] _
           ex_world ex_world).
  - reflexivity.
  - compute_done.
  - compute_done.
  - vm_compute. reflexivity.
Defined.

(** C4 as stated fails when the missed set holds a line that is not a
    statement line: [odd.py] has no statement line and missed line 1; its
    block carries [DA:1,0]. *)
Lemma C4_counterexample :
  let a := (ex_analysis [] [1])%positive in
  let block := [TN_line; SF_line "odd.py"; DA_line 1 0;
                LF_line 0; LH_line 0; end_of_record] in
  _analyze (cov_obj (ex_converter None None false [ex_odd])) (_unpack_morf ex_odd)
  = Return a /\
  (1%positive ∉ statements a) /\
  process_file (ex_converter None None false [ex_odd]) ex_odd [] ex_world
  = (ex_world, Return ([] ++ block)) /\
  DA_line 1 0 ∈ block.
Proof.
  cbv zeta. split; [done|]. split; [compute_done|].
  split; [by vm_compute|]. right. right. left.
Qed.

(** C2 on the analysis of the example: line 2 is missed, line 4 is no
    statement line, line 3 is executed. *)
Lemma C2_witness :
  let a := (ex_analysis [1; 2; 3; 5] [2])%positive in
  get_hits 2 a = Some 0 /\ get_hits 4 a = None /\ get_hits 3 a = Some 1.
Proof.
  cbv zeta.
  destruct (C2_get_hits_drives_DA (ex_analysis [1; 2; 3; 5] [2])%positive)
    as (Hmissed & Hnone & Hexecuted & _).
  split; [|split].
  - apply Hmissed. compute_done.
  - apply Hnone; compute_done.
  - apply Hexecuted; compute_done.
Defined.

(** C5 on three files, of which [gone.py] has no source. *)
Lemma C5_witness :
  let c := ex_converter None None true [ex_gone; ex_b; ex_a] in
  get_lcov ex_glob ex_lt c ex_world
  = (ex_world,
     Return (String.concat ""
               (file_block c ex_a (ex_analysis [1; 2; 3; 5] [2])%positive
                           (replicate 5 [])
                ++ file_block c ex_b (ex_analysis [1; 2] [])%positive
                              (replicate 2 [])))).
Proof.
  cbv zeta.
  apply (C5_missing_source_skipped ex_glob ex_lt
           (ex_converter None None true [ex_gone; ex_b; ex_a]) ex_world
           [ex_a; ex_b] [] ex_gone ex_a ex_b "No source for code: 'gone.py'.").
  - reflexivity.
  - reflexivity.
  - reflexivity.
  - reflexivity.
  - split; reflexivity.
  - split; reflexivity.
Defined.

(** C6 on a listing none of whose files matches the include pattern. *)
Lemma C6_witness :
  get_lcov ex_glob ex_lt (ex_converter (Some ["src/"]) None false [ex_a; ex_b])
    ex_world
  = (ex_world, Raise (CoverageException "No data to report.")).
Proof.
  apply (C6_empty_report ex_glob ex_lt
           (ex_converter (Some ["src/"]) None false [ex_a; ex_b]) ex_world "out.lcov").
  reflexivity.
Defined.

(** C7 on a file under [src/vendor/], included by [src/] and omitted by
    [src/vendor/]. *)
Lemma C7_witness :
  let c := ex_converter (Some ["src/"]) (Some ["src/vendor/"]) false
             [ex_module; ex_vendored] in
  ex_vendored ∉ filtered_file_reporters ex_glob c.
Proof.
  cbv zeta.
  apply (C7_omit_takes_precedence ex_glob ex_lt
           (ex_converter (Some ["src/"]) (Some ["src/vendor/"]) false
              [ex_module; ex_vendored]) ex_vendored).
  - exists "src/". split; [by left|reflexivity].
  - exists "src/vendor/". split; [by left|reflexivity].
Defined.

(** C8 on two listings of the same two files. *)
Lemma C8_witness :
  snd (get_lcov ex_glob ex_lt (ex_converter None None false [ex_b; ex_a]) ex_world)
  = snd (get_lcov ex_glob ex_lt (ex_converter None None false [ex_a; ex_b]) ex_world).
Proof.
  apply (C8_deterministic ex_glob ex_lt (ex_converter None None false [])).
  - apply perm_swap.
  - split; [|split].
    + intros x y z Hx Hy Hz. listing_cases; vm_compute; congruence.
    + intros x y Hx Hy. listing_cases; vm_compute; congruence.
    + intros x y Hx Hy. listing_cases;
        first [left; reflexivity | right; left; reflexivity
              | right; right; reflexivity].
Defined.

(** C9 on a run that fails at its second file: [gone.py] has no source
    and [ignore_errors] is disabled. *)
Lemma C9_witness :
  let c := ex_converter None None false [ex_a; ex_gone] in
  create_lcov ex_glob ex_lt c "out.lcov" ex_world
  = (ex_world, Raise (NoSource "No source for code: 'gone.py'.")) /\
  files (fst (create_lcov ex_glob ex_lt c "out.lcov" ex_world)) = files ex_world.
Proof.
  cbv zeta.
  apply (C9_no_partial_file ex_glob ex_lt
           (ex_converter None None false [ex_a; ex_gone]) "out.lcov"
           ex_world ex_world).
  vm_compute. reflexivity.
Defined.

(** C10 at a listing of tuples: [page.html] is not Python and its
    extension says it should not be. *)
Lemma C10_witness :
  process_file (ex_converter None None false [ex_page_tuple]) ex_page_tuple []
    ex_world
  = (ex_world,
     Raise (AttributeError "'tuple' object has no attribute 'should_be_python'")).
Proof.
  apply (C10_tuple_not_python_raises
           (ex_converter None None false [ex_page_tuple])
           (ex_reporter "page.html" 3) "page.html"
           "Couldn't parse 'page.html' as Python source").
  reflexivity.
Defined.

(** The same file in a listing of reporters is passed over, and in a
    listing of tuples the whole report fails. *)
Example get_lcov_page_plain :
  get_lcov ex_glob ex_lt (ex_converter None None false [ex_page]) ex_world
  = (ex_world, Return ""%string).
Proof. vm_compute. reflexivity. Qed.

Example get_lcov_page_tuple :
  get_lcov ex_glob ex_lt (ex_converter None None false [ex_page_tuple]) ex_world
  = (ex_world,
     Raise (AttributeError "'tuple' object has no attribute 'should_be_python'")).
Proof. vm_compute. reflexivity. Qed.

(** ** Further properties of the block of a file *)

Lemma StronglySorted_filter {A} (R : relation A) (P : A -> Prop)
    `{!forall x, Decision (P x)} (l : list A) :
  StronglySorted R l -> StronglySorted R (filter P l).
Proof.
  induction 1 as [|x l _ IH Hx]; [constructor|].
  rewrite filter_cons. destruct (decide (P x)); [|done].
  constructor; [done|].
  apply Forall_forall. intros y [_ Hy]%list_elem_of_filter.
  rewrite Forall_forall in Hx. by apply Hx.
Qed.

Lemma length_omap_le {A B} (f : A -> option B) (l : list A) :
  (length (omap f l) <= length l)%nat.
Proof.
  induction l as [|x l IH]; [done|].
  change (omap f (x :: l))
    with (match f x with Some y => y :: omap f l | None => omap f l end).
  destruct (f x); simpl; lia.
Qed.

Lemma is_hit_true (a : Analysis) (i : positive) :
  is_hit a i = true <-> i ∈ statements a ∖ missing a.
Proof.
  unfold is_hit. rewrite elem_of_difference.
  destruct (decide (i ∈ missing a)) as [Hm|Hm];
    [rewrite get_hits_missing by done
    |destruct (decide (i ∈ statements a)) as [Hs|Hs];
     [rewrite get_hits_executed by done
     |rewrite get_hits_not_statement by done]];
    [change (0 <? 0) with false|change (0 <? 1) with true|];
    simpl; intuition congruence.
Qed.

Lemma DA_of_cases (a : Analysis) (i : positive) :
  DA_of a i
  = if decide (i ∈ missing a ∪ statements a)
    then Some (DA_line i (if decide (i ∈ missing a) then 0 else 1))
    else None.
Proof.
  unfold DA_of.
  destruct (decide (i ∈ missing a)) as [Hm|Hm].
  - rewrite get_hits_missing by done.
    rewrite decide_True; [done|]. apply elem_of_union. by left.
  - destruct (decide (i ∈ statements a)) as [Hs|Hs].
    + rewrite get_hits_executed by done.
      rewrite decide_True; [done|]. apply elem_of_union. by right.
    + rewrite get_hits_not_statement by done.
      rewrite decide_False; [done|]. rewrite elem_of_union. tauto.
Qed.

(** X1: whatever the two sets of the analysis are, the block of an
    analysed file has a [DA:] line exactly for the physical lines that are
    in the missed set or in the statement set, in strictly ascending line
    order, with hit count 0 for the missed ones and 1 for the others; its
    [LF:] line carries the size of the statement set and its [LH:] line the
    number of physical lines that are statement lines and not missed. *)
Theorem X1_block_of_any_analysis (c : Converter) (file_reporter : FileReporterItem)
    (a : Analysis) (token_lines : list TokenLine) (output : list string)
    (w : World) :
  analysed c file_reporter a token_lines ->
  let reported :=
    filter (fun l => l ∈ missing a ∪ statements a) (physical_lines token_lines) in
  let hit :=
    filter (fun l => l ∈ statements a ∖ missing a) (physical_lines token_lines) in
  process_file c file_reporter output w
  = (w, Return (output
                ++ [TN_line; SF_line (emitted_filename c file_reporter)]
                ++ map (fun l => DA_line l (if decide (l ∈ missing a) then 0 else 1))
                       reported
                ++ [LF_line (Z.of_nat (size (statements a)));
                    LH_line (Z.of_nat (length hit));
                    end_of_record])) /\
  StronglySorted Pos.lt reported.
Proof.
  intros Han reported hit. split.
  - rewrite (process_file_analysed _ _ _ _ _ _ Han). unfold file_block.
    rewrite (omap_as_filter (DA_of a)
               (fun l => DA_line l (if decide (l ∈ missing a) then 0 else 1))
               (fun l => l ∈ missing a ∪ statements a))
      by (intros x _; apply DA_of_cases).
    rewrite (bool_filter_as_filter (is_hit a)
               (fun l => l ∈ statements a ∖ missing a))
      by (intros x _; apply is_hit_true).
    done.
  - apply StronglySorted_filter, pos_seq_sorted.
Qed.

Lemma hit_lines_le_statements (a : Analysis) (lines : list positive) :
  NoDup lines ->
  (length (List.filter (is_hit a) lines) <= size (statements a))%nat.
Proof.
  intros Hnd.
  rewrite (bool_filter_as_filter (is_hit a)
             (fun l => l ∈ statements a ∖ missing a))
    by (intros x _; apply is_hit_true).
  unfold size, set_size. simpl. apply submseteq_length, NoDup_submseteq.
  - by apply NoDup_filter.
  - intros x [[Hx _]%elem_of_difference _]%list_elem_of_filter.
    by apply elem_of_elements.
Qed.

Lemma omap_cons {A B} (f : A -> option B) (x : A) (l : list A) :
  omap f (x :: l)
  = match f x with Some y => y :: omap f l | None => omap f l end.
Proof. reflexivity. Qed.

Lemma DA_lines_split (a : Analysis) (lines : list positive) :
  length (omap (DA_of a) lines)
  = (length (List.filter (is_hit a) lines)
     + length (List.filter is_zero_hit_DA_line (omap (DA_of a) lines)))%nat.
Proof.
  induction lines as [|i lines IH]; [done|].
  rewrite omap_cons. cbn [List.filter]. unfold is_hit at 1.
  assert (DA_of a i = DA_line i <$> get_hits i a) as -> by done.
  destruct (get_hits i a) as [h|] eqn:Hh; [|done].
  apply get_hits_values in Hh as [->| ->]; cbn [fmap option_fmap option_map
    List.filter length].
  - change (0 <? 0) with false. rewrite zero_hit_DA_line_0. simpl. lia.
  - change (0 <? 1) with true. rewrite zero_hit_DA_line_1. simpl. lia.
Qed.

(** X2: in the block of an analysed file, whatever the analysis, the count
    of the [LH:] line is at most the count of the [LF:] line; there are at
    most as many [DA:] lines as token lines; and the [DA:] lines are as
    many as the count of the [LH:] line plus the [DA:] lines with hit
    count 0. *)
Theorem X2_block_counts (c : Converter) (file_reporter : FileReporterItem)
    (a : Analysis) (token_lines : list TokenLine) (output : list string)
    (w : World) :
  analysed c file_reporter a token_lines ->
  exists (das : list string) (lh : nat),
    process_file c file_reporter output w
    = (w, Return (output
                  ++ [TN_line; SF_line (emitted_filename c file_reporter)]
                  ++ das
                  ++ [LF_line (Z.of_nat (size (statements a)));
                      LH_line (Z.of_nat lh); end_of_record])) /\
    Forall (fun s => is_DA_line s = true) das /\
    (lh <= size (statements a))%nat /\
    (length das <= length token_lines)%nat /\
    length das
    = (lh + length (List.filter is_zero_hit_DA_line das))%nat.
Proof.
  intros Han.
  exists (omap (DA_of a) (physical_lines token_lines)),
    (length (List.filter (is_hit a) (physical_lines token_lines))).
  split; [|split; [|split; [|split]]].
  - by rewrite (process_file_analysed _ _ _ _ _ _ Han).
  - apply Forall_forall. intros s [i [_ Hi]]%list_elem_of_omap.
    unfold DA_of in Hi. destruct (get_hits i a) as [h|]; simplify_eq/=.
    apply is_DA_line_DA.
  - apply hit_lines_le_statements, StronglySorted_lt_NoDup, pos_seq_sorted.
  - etrans; [apply length_omap_le|]. unfold physical_lines.
    clear. generalize 1%positive. induction (length token_lines) as [|n IH];
      intros p; simpl; [done|]. specialize (IH (Pos.succ p)). lia.
  - apply DA_lines_split.
Qed.

(** ** Further properties of the converter *)

Section Further.

Variable glob_match : string -> string -> bool.
Variable reporter_lt : FileReporterItem -> FileReporterItem -> bool.

(** *** The eligible files *)

Lemma truthy_patterns (o : option (list string)) :
  truthy o = false <-> patterns o = [].
Proof. by destruct o as [[|p l]|]. Qed.

Lemma bool_filter_sublist {A} (f : A -> bool) (l : list A) :
  List.filter f l `sublist_of` l.
Proof.
  induction l as [|x l IH]; simpl; [done|].
  destruct (f x); [by apply sublist_skip|by apply sublist_cons].
Qed.

Lemma filtered_sublist (c : Converter) :
  filtered_file_reporters glob_match c
  `sublist_of` _get_file_reporters (cov_obj c).
Proof.
  unfold filtered_file_reporters.
  destruct (truthy (report_include _)), (truthy (report_omit _));
    repeat (etrans; [apply bool_filter_sublist|]); done.
Qed.

Lemma elem_of_filtered (c : Converter) (file_reporter : FileReporterItem) :
  let path := filename (_unpack_file_reporter file_reporter) in
  let config := config (cov_obj c) in
  file_reporter ∈ filtered_file_reporters glob_match c <->
  file_reporter ∈ _get_file_reporters (cov_obj c) /\
  (patterns (report_include config) = [] \/
   exists p, p ∈ patterns (report_include config) /\ glob_match p path = true) /\
  ~ (exists q, q ∈ patterns (report_omit config) /\ glob_match q path = true).
Proof using glob_match.
  clear reporter_lt.
  intros path config. unfold filtered_file_reporters. fold config.
  rewrite <-!(matcher_match_true glob_match), <-truthy_patterns,
    not_true_iff_false.
  destruct (truthy (report_include config)) eqn:Hi,
    (truthy (report_omit config)) eqn:Ho;
    rewrite ?list_elem_of_In, ?filter_In, ?negb_true_iff; fold path;
    try (apply truthy_patterns in Ho; rewrite Ho;
         change (matcher_match glob_match [] path) with false);
    intuition congruence.
Qed.

(** X3: when [get_file_reporters] returns, it leaves the world as it was
    and its result is not empty, keeps the order of the listing, and holds
    exactly the listed files whose path matches an include pattern, if
    there is any include pattern, and matches no omit pattern; an absent
    and an empty pattern list filter nothing. *)
Theorem X3_eligible_files (c : Converter) (w w' : World)
    (l : list FileReporterItem) :
  get_file_reporters glob_match c w = (w', Return l) ->
  w' = w /\ l ≠ [] /\
  l `sublist_of` _get_file_reporters (cov_obj c) /\
  forall file_reporter,
    let path := filename (_unpack_file_reporter file_reporter) in
    file_reporter ∈ l <->
    file_reporter ∈ _get_file_reporters (cov_obj c) /\
    (patterns (report_include (config (cov_obj c))) = [] \/
     exists p, p ∈ patterns (report_include (config (cov_obj c))) /\
               glob_match p path = true) /\
    ~ (exists q, q ∈ patterns (report_omit (config (cov_obj c))) /\
                 glob_match q path = true).
Proof.
  unfold get_file_reporters.
  destruct (filtered_file_reporters glob_match c) as [|x l'] eqn:Hf; [done|].
  intros [= <- <-]. split; [done|]. split; [done|]. rewrite <-Hf.
  split; [apply filtered_sublist|]. intros file_reporter.
  apply elem_of_filtered.
Qed.

(** *** The order of the iteration *)

Lemma sorted_insert_Permutation (x : FileReporterItem) (l : list FileReporterItem) :
  sorted_insert reporter_lt x l ≡ₚ x :: l.
Proof.
  induction l as [|y l IH]; simpl; [done|].
  destruct (reporter_lt y x); [|done].
  rewrite IH. apply perm_swap.
Qed.

Lemma sorted_Permutation_self (l : list FileReporterItem) :
  sorted reporter_lt l ≡ₚ l.
Proof.
  induction l as [|x l IH]; simpl; [done|].
  by rewrite sorted_insert_Permutation, IH.
Qed.

Lemma sorted_insert_ascending (P : FileReporterItem -> Prop)
    (x : FileReporterItem) (l : list FileReporterItem) :
  strict_total_on reporter_lt P ->
  P x -> (forall z, z ∈ l -> P z) ->
  StronglySorted (fun a b => reporter_lt b a = false) l ->
  StronglySorted (fun a b => reporter_lt b a = false)
                 (sorted_insert reporter_lt x l).
Proof.
  intros (Htrans & Hasym & Htotal) Hx Hl Hs.
  induction Hs as [|y l Hs IH Hy]; simpl.
  - repeat constructor.
  - pose proof (Hl y ltac:(left)) as HPy.
    assert (forall z, z ∈ l -> P z) as Hl' by (intros z ?; apply Hl; by right).
    rewrite Forall_forall in Hy.
    destruct (reporter_lt y x) eqn:Hyx.
    + constructor; [by apply IH|].
      apply Forall_forall. intros z Hz.
      apply (elem_of_sorted_insert reporter_lt) in Hz as [->|Hz].
      * by apply Hasym.
      * by apply Hy.
    + constructor; [by constructor; [|apply Forall_forall]|].
      constructor; [done|]. apply Forall_forall. intros z Hz.
      destruct (reporter_lt z x) eqn:Hzx; [|done].
      pose proof (Hy z Hz) as Hzy.
      destruct (Htotal x y Hx HPy) as [Hxy|[->|?]]; [|congruence..].
      rewrite (Htrans z x y (Hl' z Hz) Hx HPy Hzx Hxy) in Hzy. done.
Qed.

(** X4: the list that the loop of [get_lcov] iterates holds the eligible
    files, each as often as the eligible list does; when [<] is a strict
    total order on them, no file of the iteration is less than a file that
    comes before it. *)
Theorem X4_iteration_order (l : list FileReporterItem) :
  sorted reporter_lt l ≡ₚ l /\
  (strict_total_on reporter_lt (fun x => x ∈ l) ->
   StronglySorted (fun a b => reporter_lt b a = false) (sorted reporter_lt l)).
Proof.
  split; [apply sorted_Permutation_self|].
  intros Hord.
  assert (forall l', (forall z, z ∈ l' -> z ∈ l) ->
            StronglySorted (fun a b => reporter_lt b a = false)
                           (sorted reporter_lt l')) as H.
  { induction l' as [|x l' IH]; intros Hsub; simpl; [constructor|].
    apply (sorted_insert_ascending (fun x => x ∈ l)); [done|..].
    - apply Hsub. by left.
    - intros z Hz. apply (proj1 (elem_of_sorted reporter_lt z l')) in Hz.
      apply Hsub. by right.
    - apply IH. intros z Hz. apply Hsub. by right. }
  by apply H.
Qed.

(** *** Runs that ignore analysis errors *)

Lemma add_warnings_nil (w : World) : add_warnings w [] = w.
Proof. destruct w. unfold add_warnings. simpl. by rewrite app_nil_r. Qed.

Lemma add_warnings_app (w : World) (ws1 ws2 : list Warning) :
  add_warnings (add_warnings w ws1) ws2 = add_warnings w (ws1 ++ ws2).
Proof. unfold add_warnings. simpl. by rewrite app_assoc. Qed.

(** The [try] block reads [output] only to append to it. *)
Lemma try_block_from_nil (c : Converter) (file_reporter : FileReporterItem)
    (output : list string) :
  try_block c file_reporter output
  = match try_block c file_reporter [] with
    | Return block => Return (output ++ block)
    | Raise e => Raise e
    end.
Proof.
  unfold try_block.
  destruct (_analyze (cov_obj c) (_unpack_morf file_reporter)) as [a|e]; [|done].
  destruct (source_token_lines (_unpack_file_reporter file_reporter))
    as [token_lines|e]; [|done].
  rewrite !line_loop_spec. f_equal. by rewrite <-!app_assoc.
Qed.

Lemma process_file_returns (c : Converter) (file_reporter : FileReporterItem)
    (output : list string) (w : World) :
  returns_block c file_reporter ->
  process_file c file_reporter output w
  = (w, Return (output ++ item_block c file_reporter)).
Proof.
  intros [block Hb]. unfold process_file, item_block.
  by rewrite (try_block_from_nil c file_reporter output), Hb.
Qed.




(** *** Runs that abort *)

Lemma for_each_file_returns (c : Converter) (l1 rest : list FileReporterItem) :
  Forall (returns_block c) l1 ->
  forall (output : list string) (w : World),
    for_each_file c (l1 ++ rest) output w
    = for_each_file c rest (output ++ flat_map (item_block c) l1) w.
Proof.
  intros Hall. induction Hall as [|fr l1 Hfr _ IH]; intros output w.
  - simpl. by rewrite app_nil_r.
  - cbn [app]. rewrite (for_each_file_cons _ _ _ _ _ _ _
                          (process_file_returns c fr output w Hfr)).
    rewrite IH. simpl. by rewrite app_assoc.
Qed.

(** The run aborts at a file for which the iteration raises, when the
    files before it are analysed. *)
Lemma get_lcov_aborts (c : Converter) (w : World)
    (l1 l2 : list FileReporterItem) (bad : FileReporterItem) (e : exn) :
  sorted reporter_lt (filtered_file_reporters glob_match c) = l1 ++ bad :: l2 ->
  Forall (returns_block c) l1 ->
  (forall output, process_file c bad output w = (w, Raise e)) ->
  get_lcov glob_match reporter_lt c w = (w, Raise e).
Proof.
  intros Hsorted Hl1 Hbad. unfold get_lcov.
  apply bind_Raise. rewrite get_lcov_lines_run.
  2: { intros Hnil. rewrite Hnil in Hsorted. by destruct l1. }
  rewrite Hsorted, for_each_file_returns by done.
  simpl. apply bind_Raise, Hbad.
Qed.

(** X6: with [ignore_errors] disabled, when the files iterated before a
    file are analysed and that file raises [NoSource], [get_lcov] raises
    that exception and returns no text, and [create_lcov] raises it
    without touching the world. *)
Theorem X6_missing_source_aborts (c : Converter) (w : World)
    (l1 l2 : list FileReporterItem) (bad : FileReporterItem) (msg path : string) :
  ignore_errors (config (cov_obj c)) = false ->
  sorted reporter_lt (filtered_file_reporters glob_match c) = l1 ++ bad :: l2 ->
  Forall (returns_block c) l1 ->
  try_block c bad [] = Raise (NoSource msg) ->
  get_lcov glob_match reporter_lt c w = (w, Raise (NoSource msg)) /\
  create_lcov glob_match reporter_lt c path w = (w, Raise (NoSource msg)).
Proof.
  intros Hign Hsorted Hl1 Hbad.
  assert (get_lcov glob_match reporter_lt c w = (w, Raise (NoSource msg))) as H.
  { apply (get_lcov_aborts c w l1 l2 bad); [done..|].
    intros output. unfold process_file.
    by rewrite (try_block_from_nil c bad output), Hbad, Hign. }
  split; [done|]. unfold create_lcov. by apply bind_Raise.
Qed.

(** X7: with [ignore_errors] disabled, when the files iterated before a
    reporter listed alone are analysed and that reporter raises
    [NotPython] and should be Python, [get_lcov] raises that exception,
    returns no text and emits no warning. *)
Theorem X7_unparseable_aborts (c : Converter) (w : World)
    (l1 l2 : list FileReporterItem) (fr : PythonFileReporter) (msg : string) :
  ignore_errors (config (cov_obj c)) = false ->
  sorted reporter_lt (filtered_file_reporters glob_match c)
  = l1 ++ Plain fr :: l2 ->
  Forall (returns_block c) l1 ->
  try_block c (Plain fr) [] = Raise (NotPython msg) ->
  should_be_python fr = true ->
  get_lcov glob_match reporter_lt c w = (w, Raise (NotPython msg)).
Proof.
  intros Hign Hsorted Hl1 Hbad Hshould.
  apply (get_lcov_aborts c w l1 l2 (Plain fr)); [done..|].
  intros output. unfold process_file.
  rewrite (try_block_from_nil c (Plain fr) output), Hbad.
  unfold item_should_be_python, mbind, M_bind, bind, mret, M_ret, ret.
  by rewrite Hshould, Hign.
Qed.

(** X8: an exception of the [try] block that is neither [NoSource] nor
    [NotPython] is not caught: when the files iterated before the file are
    analysed, [get_lcov] raises it unchanged and returns no text, whatever
    [ignore_errors] says. *)
Theorem X8_other_errors_propagate (c : Converter) (w : World)
    (l1 l2 : list FileReporterItem) (bad : FileReporterItem) (e : exn) :
  sorted reporter_lt (filtered_file_reporters glob_match c) = l1 ++ bad :: l2 ->
  Forall (returns_block c) l1 ->
  try_block c bad [] = Raise e ->
  uncaught e = true ->
  get_lcov glob_match reporter_lt c w = (w, Raise e).
Proof.
  intros Hsorted Hl1 Hbad He.
  apply (get_lcov_aborts c w l1 l2 bad); [done..|].
  intros output. unfold process_file.
  rewrite (try_block_from_nil c bad output), Hbad. by destruct e.
Qed.

(** *** What a run does to the world *)

Lemma process_file_world (c : Converter) (file_reporter : FileReporterItem)
    (output : list string) (w : World) :
  exists ws,
    fst (process_file c file_reporter output w) = add_warnings w ws /\
    Forall (fun x => warning_slug x = "couldnt-parse"%string) ws /\
    (ignore_errors (config (cov_obj c)) = false -> ws = []) /\
    (length ws <= 1)%nat.
Proof.
  assert (exists ws, w = add_warnings w ws /\
            Forall (fun x => warning_slug x = "couldnt-parse"%string) ws /\
            (ignore_errors (config (cov_obj c)) = false -> ws = []) /\
            (length ws <= 1)%nat) as Hsame.
  { exists []. rewrite add_warnings_nil. repeat split; [constructor|simpl; lia]. }
  unfold process_file.
  destruct (try_block c file_reporter output) as [output'|e]; [done|].
  destruct e as [msg|msg|msg|msg|msg|msg|name msg]; try done.
  - by destruct (negb (ignore_errors (config (cov_obj c)))).
  - destruct file_reporter as [fr|fr morf]; [|done].
    unfold item_should_be_python, item_filename, mbind, M_bind, bind, mret,
      M_ret, ret, raise, _warn.
    destruct (should_be_python fr); [|done].
    destruct (ignore_errors (config (cov_obj c))); [|done].
    eexists [_]. simpl. split; [reflexivity|].
    split; [by repeat constructor|]. split; [done|lia].
Qed.

Lemma for_each_file_world (c : Converter) (frs : list FileReporterItem) :
  forall (output : list string) (w : World),
  exists ws,
    fst (for_each_file c frs output w) = add_warnings w ws /\
    Forall (fun x => warning_slug x = "couldnt-parse"%string) ws /\
    (ignore_errors (config (cov_obj c)) = false -> ws = []) /\
    (length ws <= length frs)%nat.
Proof.
  induction frs as [|fr frs IH]; intros output w.
  - exists []. simpl. rewrite add_warnings_nil.
    repeat split; [constructor|lia].
  - destruct (process_file_world c fr output w) as (ws1 & Hw1 & Hs1 & Hi1 & Hl1).
    simpl. unfold mbind, M_bind, bind.
    destruct (process_file c fr output w) as [w1 [output1|e]]; simpl in Hw1.
    + destruct (IH output1 w1) as (ws2 & Hw2 & Hs2 & Hi2 & Hl2).
      exists (ws1 ++ ws2). rewrite Hw2, Hw1, add_warnings_app.
      split; [done|]. split; [by apply Forall_app|].
      split; [intros H; by rewrite Hi1, Hi2|]. rewrite length_app. lia.
    + exists ws1. simpl. repeat split; try done. lia.
Qed.

(** X9: whatever its outcome, [get_lcov] changes the world only by adding
    warnings: files, standard output and permissions are as before.  The
    warnings added all have the slug [couldnt-parse], they are at most as
    many as the eligible files, and there is none when [ignore_errors] is
    disabled. *)
Theorem X9_world_frame (c : Converter) (w : World) :
  exists ws,
    fst (get_lcov glob_match reporter_lt c w) = add_warnings w ws /\
    Forall (fun x => warning_slug x = "couldnt-parse"%string) ws /\
    (ignore_errors (config (cov_obj c)) = false -> ws = []) /\
    (length ws <= length (filtered_file_reporters glob_match c))%nat.
Proof.
  unfold get_lcov, get_lcov_lines, get_file_reporters.
  destruct (filtered_file_reporters glob_match c) as [|x l] eqn:Hf.
  - exists []. simpl. rewrite add_warnings_nil. repeat split; constructor.
  - unfold mbind, M_bind, bind, mret, M_ret, ret.
    destruct (for_each_file_world c (sorted reporter_lt (x :: l)) [] w)
      as (ws & Hw & Hs & Hi & Hl).
    exists ws.
    rewrite (Permutation_length (sorted_Permutation_self (x :: l))) in Hl.
    by destruct (for_each_file c (sorted reporter_lt (x :: l)) [] w)
      as [w' [output|e]].
Qed.

Lemma get_lcov_frame (c : Converter) (w w' : World) (r : outcome string) :
  get_lcov glob_match reporter_lt c w = (w', r) ->
  files w' = files w /\ writable w' = writable w /\ stdout w' = stdout w.
Proof.
  unfold get_lcov, get_lcov_lines, get_file_reporters.
  destruct (filtered_file_reporters glob_match c) as [|x l].
  - by intros [= <- _].
  - unfold mbind, M_bind, bind, mret, M_ret, ret.
    destruct (for_each_file_world c (sorted reporter_lt (x :: l)) [] w)
      as (ws & Hw & _).
    destruct (for_each_file c (sorted reporter_lt (x :: l)) [] w)
      as [w1 [output|e]]; intros [= <- _]; simpl in Hw; by rewrite Hw.
Qed.

(** *** Delivery of the report *)

(** X10: when [get_lcov] returns a text that is ASCII and the destination
    can be opened for writing, [create_lcov] returns, the destination
    holds exactly that text, every other file is as before the call, and
    nothing is printed. *)
Theorem X10_create_lcov_writes_report (c : Converter) (path text : string)
    (w w' : World) :
  get_lcov glob_match reporter_lt c w = (w', Return text) ->
  writable w path = true ->
  is_ascii text = true ->
  let r := create_lcov glob_match reporter_lt c path w in
  snd r = Return tt /\
  files (fst r) !! path = Some text /\
  (forall p, p ≠ path -> files (fst r) !! p = files w !! p) /\
  stdout (fst r) = stdout w /\
  warnings (fst r) = warnings w'.
Proof.
  intros Hrun Hw Hascii. destruct (get_lcov_frame _ _ _ _ Hrun) as (Hf & Hwr & Hs).
  cbv zeta. unfold create_lcov. rewrite (bind_Return _ _ _ _ _ Hrun).
  unfold write_ascii_file. rewrite Hwr, Hw, Hascii. simpl.
  rewrite Hf. split; [done|]. split; [apply lookup_insert_eq|].
  split; [|done]. intros p Hp. by apply lookup_insert_ne.
Qed.

(** X11: when [get_lcov] returns a text, [create_lcov] fails in two
    ways.  If the destination cannot be opened for writing it raises
    [OSError] and no file changes.  If it can, and the text has a
    character outside ASCII, it raises [UnicodeEncodeError] after the
    destination has been opened: the destination is left empty, whatever
    it held, and the other files are as before. *)
Theorem X11_create_lcov_failures (c : Converter) (path text : string)
    (w w' : World) :
  get_lcov glob_match reporter_lt c w = (w', Return text) ->
  let r := create_lcov glob_match reporter_lt c path w in
  (writable w path = false ->
   (exists msg, snd r = Raise (OSError msg)) /\ files (fst r) = files w) /\
  (writable w path = true -> is_ascii text = false ->
   (exists msg, snd r = Raise (UnicodeEncodeError msg)) /\
   files (fst r) !! path = Some ""%string /\
   forall p, p ≠ path -> files (fst r) !! p = files w !! p).
Proof.
  intros Hrun. destruct (get_lcov_frame _ _ _ _ Hrun) as (Hf & Hwr & Hs).
  cbv zeta. unfold create_lcov. rewrite (bind_Return _ _ _ _ _ Hrun).
  unfold write_ascii_file. rewrite Hwr. split.
  - intros ->. simpl. split; [by eexists|done].
  - intros -> ->. simpl. rewrite Hf. split; [by eexists|].
    split; [apply lookup_insert_eq|]. intros p Hp. by apply lookup_insert_ne.
Qed.

(** X12: [print_lcov] prints the text that [get_lcov] returns, followed
    by a line terminator, after what was printed before, and changes no
    file; when [get_lcov] raises, [print_lcov] raises the same exception
    and prints nothing. *)
Theorem X12_print_lcov (c : Converter) (w w' : World) :
  (forall text,
      get_lcov glob_match reporter_lt c w = (w', Return text) ->
      let r := print_lcov glob_match reporter_lt c w in
      snd r = Return tt /\
      stdout (fst r) = stdout w ++ [text +:+ nl] /\
      files (fst r) = files w) /\
  (forall e,
      get_lcov glob_match reporter_lt c w = (w', Raise e) ->
      let r := print_lcov glob_match reporter_lt c w in
      snd r = Raise e /\ stdout (fst r) = stdout w /\ files (fst r) = files w).
Proof.
  split.
  - intros text Hrun. destruct (get_lcov_frame _ _ _ _ Hrun) as (Hf & _ & Hs).
    cbv zeta. unfold print_lcov. rewrite (bind_Return _ _ _ _ _ Hrun).
    unfold print. simpl. by rewrite Hf, Hs.
  - intros e Hrun. destruct (get_lcov_frame _ _ _ _ Hrun) as (Hf & _ & Hs).
    cbv zeta. unfold print_lcov. by rewrite (bind_Raise _ _ _ _ _ Hrun).
Qed.

(** *** The shape of the report *)


Lemma try_block_Return_inv (c : Converter) (file_reporter : FileReporterItem)
    (output output' : list string) :
  try_block c file_reporter output = Return output' ->
  exists a token_lines,
    analysed c file_reporter a token_lines /\
    output' = output ++ file_block c file_reporter a token_lines.
Proof.
  intros H. unfold analysed.
  destruct (_analyze (cov_obj c) (_unpack_morf file_reporter)) as [a|e] eqn:Ha;
    [|by rewrite (try_block_analyze_raises _ _ _ _ Ha) in H].
  destruct (source_token_lines (_unpack_file_reporter file_reporter))
    as [token_lines|e] eqn:Ht.
  - exists a, token_lines. split; [done|].
    rewrite (try_block_analysed c file_reporter a token_lines) in H by done.
    by injection H as <-.
  - unfold try_block in H. by rewrite Ha, Ht in H.
Qed.




(** *** The characters of the report *)

Lemma is_ascii_app (s t : string) :
  is_ascii (s +:+ t) = is_ascii s && is_ascii t.
Proof.
  unfold is_ascii. induction s as [|a s IH]; [done|].
  rewrite string_app_cons. simpl. by rewrite IH, andb_assoc.
Qed.

Lemma is_ascii_concat (l : list string) :
  Forall (fun s => is_ascii s = true) l -> is_ascii (String.concat "" l) = true.
Proof.
  induction 1 as [|x l Hx _ IH]; [done|].
  destruct l as [|y l]; [done|].
  change (String.concat "" (x :: y :: l))
    with (x +:+ "" +:+ String.concat "" (y :: l)).
  by rewrite !is_ascii_app, Hx, IH.
Qed.

Lemma pretty_N_char_ascii (x : N) :
  (N_of_ascii (pretty_N_char x) <? 128)%N = true.
Proof. unfold pretty_N_char. by repeat case_match. Qed.

Lemma pretty_N_go_ascii (x : N) (s : string) :
  is_ascii s = true -> is_ascii (pretty_N_go x s) = true.
Proof.
  revert s. induction (N.lt_wf_0 x) as [x _ IH]; intros s Hs.
  assert (x = 0 \/ 0 < x)%N as [->|Hx] by lia.
  - by rewrite pretty_N_go_0.
  - rewrite pretty_N_go_step by done. apply IH.
    + by apply N.div_lt.
    + unfold is_ascii in *. simpl. by rewrite pretty_N_char_ascii, Hs.
Qed.

Lemma pretty_positive_ascii (p : positive) : is_ascii (pretty p) = true.
Proof.
  unfold pretty, pretty_positive, pretty, pretty_N.
  case_decide; [done|]. by apply pretty_N_go_ascii.
Qed.

Lemma pretty_Z_ascii (z : Z) : is_ascii (pretty z) = true.
Proof.
  destruct z as [|p|p]; [done|apply pretty_positive_ascii|].
  change (pretty (Z.neg p)) with ("-" +:+ pretty p).
  by rewrite is_ascii_app, pretty_positive_ascii.
Qed.

Lemma file_block_ascii (c : Converter) (file_reporter : FileReporterItem)
    (a : Analysis) (token_lines : list TokenLine) :
  is_ascii (emitted_filename c file_reporter) = true ->
  Forall (fun s => is_ascii s = true) (file_block c file_reporter a token_lines).
Proof.
  intros Hname. unfold file_block.
  apply Forall_app. split; [|apply Forall_app; split].
  - apply Forall_cons. split; [done|]. apply Forall_cons. split; [|done].
    unfold SF_line. by rewrite !is_ascii_app, Hname.
  - apply Forall_forall. intros s [i [_ Hi]]%list_elem_of_omap.
    unfold DA_of in Hi. destruct (get_hits i a) as [h|]; simplify_eq/=.
    unfold DA_line.
    by rewrite !is_ascii_app, pretty_positive_ascii, pretty_Z_ascii.
  - apply Forall_cons. split; [|apply Forall_cons; split;
      [|apply Forall_cons; split; [done|done]]].
    + unfold LF_line. by rewrite !is_ascii_app, pretty_Z_ascii.
    + unfold LH_line. by rewrite !is_ascii_app, pretty_Z_ascii.
Qed.

Lemma for_each_file_ascii (c : Converter) (frs : list FileReporterItem) :
  (forall fr, fr ∈ frs -> is_ascii (emitted_filename c fr) = true) ->
  forall (output output' : list string) (w w' : World),
    Forall (fun s => is_ascii s = true) output ->
    for_each_file c frs output w = (w', Return output') ->
    Forall (fun s => is_ascii s = true) output'.
Proof.
  induction frs as [|fr frs IH]; intros Hnames output output' w w' Hout H.
  - by injection H as _ <-.
  - simpl in H. unfold mbind, M_bind, bind in H.
    destruct (process_file c fr output w) as [w1 [out1|e]] eqn:Hp; [|done].
    apply (IH ltac:(intros x ?; apply Hnames; by right) out1 output' w1 w');
      [|done].
    destruct (try_block c fr output) as [out2|e] eqn:Ht.
    + unfold process_file in Hp. rewrite Ht in Hp. injection Hp as _ <-.
      apply try_block_Return_inv in Ht as (a & token_lines & _ & ->).
      apply Forall_app. split; [done|].
      apply file_block_ascii, Hnames. by left.
    + by rewrite (process_file_raise_inv _ _ _ _ _ _ _ Ht Hp).
Qed.

(** X14: when the name written for every eligible file is ASCII, the text
    that [get_lcov] returns is ASCII, so that [create_lcov] returns for
    every destination that can be opened for writing: it cannot fail on
    the encoding. *)
Theorem X14_ascii_report (c : Converter) (w w' : World) (text : string) :
  (forall fr, fr ∈ filtered_file_reporters glob_match c ->
              is_ascii (emitted_filename c fr) = true) ->
  get_lcov glob_match reporter_lt c w = (w', Return text) ->
  is_ascii text = true /\
  forall path, writable w path = true ->
               snd (create_lcov glob_match reporter_lt c path w) = Return tt.
Proof.
  intros Hnames Hrun.
  assert (is_ascii text = true) as Hascii.
  { revert Hrun. unfold get_lcov, get_lcov_lines, get_file_reporters.
    destruct (filtered_file_reporters glob_match c) as [|x l]; [done|].
    unfold mbind, M_bind, bind, mret, M_ret, ret.
    destruct (for_each_file c (sorted reporter_lt (x :: l)) [] w)
      as [w1 [output|e]] eqn:Hfor; [|done].
    intros [= _ <-]. apply is_ascii_concat.
    apply (for_each_file_ascii c _ ltac:(intros fr Hfr; apply Hnames;
      by apply (proj1 (elem_of_sorted reporter_lt fr _))) [] output w w1);
      [constructor|done]. }
  split; [done|]. intros path Hw.
  destruct (get_lcov_frame _ _ _ _ Hrun) as (_ & Hwr & _).
  unfold create_lcov. rewrite (bind_Return _ _ _ _ _ Hrun).
  unfold write_ascii_file. by rewrite Hwr, Hw, Hascii.
Qed.

End Further.

(** ** Worked examples of the further properties *)

(** X1 on [short.py]: statement lines 1, 5, 6, missed line 5, one
    physical line. *)
Lemma X1_witness :
  process_file (ex_converter None None false [ex_short]) ex_short [] ex_world
  = (ex_world,
     Return [TN_line; SF_line "short.py"; DA_line 1 1; LF_line 3; LH_line 1;
             end_of_record]).
Proof.
  pose proof (X1_block_of_any_analysis (ex_converter None None false [ex_short])
                ex_short (ex_analysis [1; 5; 6] [5])%positive (replicate 1 [])
                [] ex_world) as H.
  cbv zeta in H. destruct H as [-> _]; [by split|].
  vm_compute. reflexivity.
Defined.

(** X2 on the example of the specification. *)
Lemma X2_witness :
  exists (das : list string) (lh : nat),
    process_file (ex_converter None None false [ex_a]) ex_a [] ex_world
    = (ex_world, Return ([] ++ [TN_line; SF_line "a.py"] ++ das
                         ++ [LF_line 4; LH_line (Z.of_nat lh); end_of_record])) /\
    Forall (fun s => is_DA_line s = true) das /\
    (lh <= 4)%nat /\ (length das <= 5)%nat /\
    length das = (lh + length (List.filter is_zero_hit_DA_line das))%nat.
Proof.
  apply (X2_block_counts (ex_converter None None false [ex_a]) ex_a
           (ex_analysis [1; 2; 3; 5] [2])%positive (replicate 5 []) [] ex_world).
  by split.
Defined.

(** X3 on a listing of three files, one outside the include pattern and
    one under the omit pattern. *)
Lemma X3_witness :
  let c := ex_converter (Some ["src/"]) (Some ["src/vendor/"]) false
             [ex_a; ex_module; ex_vendored] in
  [ex_module] `sublist_of` _get_file_reporters (cov_obj c).
Proof.
  cbv zeta.
  apply (X3_eligible_files ex_glob
           (ex_converter (Some ["src/"]) (Some ["src/vendor/"]) false
              [ex_a; ex_module; ex_vendored]) ex_world ex_world [ex_module]).
  reflexivity.
Defined.

(** X4 on a listing of two files in descending order. *)
Lemma X4_witness :
  StronglySorted (fun a b => ex_lt b a = false) (sorted ex_lt [ex_b; ex_a]).
Proof.
  apply (X4_iteration_order ex_lt [ex_b; ex_a]).
  split; [|split].
  - intros x y z Hx Hy Hz. listing_cases; vm_compute; congruence.
  - intros x y Hx Hy. listing_cases; vm_compute; congruence.
  - intros x y Hx Hy. listing_cases;
      first [left; reflexivity | right; left; reflexivity
            | right; right; reflexivity].
Defined.


(** X6 on a run whose second file has no source. *)
Lemma X6_witness :
  get_lcov ex_glob ex_lt (ex_converter None None false [ex_gone; ex_a]) ex_world
  = (ex_world, Raise (NoSource "No source for code: 'gone.py'.")).
Proof.
  apply (X6_missing_source_aborts ex_glob ex_lt
           (ex_converter None None false [ex_gone; ex_a]) ex_world
           [ex_a] [] ex_gone "No source for code: 'gone.py'." "out.lcov").
  - reflexivity.
  - reflexivity.
  - repeat constructor. eexists. vm_compute. reflexivity.
  - reflexivity.
Defined.

(** X7 on a run whose second file does not parse. *)
Lemma X7_witness :
  get_lcov ex_glob ex_lt (fx_converter false [fx_broken; ex_a]) ex_world
  = (ex_world,
     Raise (NotPython "Couldn't parse 'broken.py' as Python source")).
Proof.
  apply (X7_unparseable_aborts ex_glob ex_lt
           (fx_converter false [fx_broken; ex_a]) ex_world
           [ex_a] [] (ex_reporter "broken.py" 4)).
  - reflexivity.
  - reflexivity.
  - repeat constructor. eexists. vm_compute. reflexivity.
  - reflexivity.
  - reflexivity.
Defined.

(** X8 on a run whose second file fails otherwise, with [ignore_errors]
    enabled. *)
Lemma X8_witness :
  get_lcov ex_glob ex_lt (fx_converter true [fx_locked; ex_a]) ex_world
  = (ex_world, Raise (OtherError "PermissionError" "locked.py")).
Proof.
  apply (X8_other_errors_propagate ex_glob ex_lt
           (fx_converter true [fx_locked; ex_a]) ex_world [ex_a] [] fx_locked).
  - reflexivity.
  - repeat constructor. eexists. vm_compute. reflexivity.
  - reflexivity.
  - reflexivity.
Defined.

(** X9 on the run of X5. *)
Lemma X9_witness :
  exists ws,
    fst (get_lcov ex_glob ex_lt
           (fx_converter true [ex_gone; fx_broken; ex_page; ex_a]) ex_world)
    = add_warnings ex_world ws /\
    Forall (fun x => warning_slug x = "couldnt-parse"%string) ws /\
    (true = false -> ws = []) /\
    (length ws <= 4)%nat.
Proof.
  apply (X9_world_frame ex_glob ex_lt
           (fx_converter true [ex_gone; fx_broken; ex_page; ex_a]) ex_world).
Defined.

(** X10 on the example of the specification, written over an older
    report. *)
Lemma X10_witness :
  files (fst (create_lcov ex_glob ex_lt (ex_converter None None false [ex_a])
                "out.lcov" fx_world)) !! "out.lcov"%string
  = Some (String.concat ""
            [TN_line; SF_line "a.py"; DA_line 1 1; DA_line 2 0; DA_line 3 1;
             DA_line 5 1; LF_line 4; LH_line 3; end_of_record]).
Proof.
  apply (X10_create_lcov_writes_report ex_glob ex_lt
           (ex_converter None None false [ex_a]) "out.lcov" _ fx_world fx_world).
  - vm_compute. reflexivity.
  - reflexivity.
  - vm_compute. reflexivity.
Defined.

(** X11 on a file whose name is not ASCII: the older report is lost. *)
Lemma X11_witness :
  files (fst (create_lcov ex_glob ex_lt (ex_converter None None false [fx_accent])
                "out.lcov" fx_world)) !! "out.lcov"%string
  = Some ""%string.
Proof.
  pose proof (X11_create_lcov_failures ex_glob ex_lt
                (ex_converter None None false [fx_accent]) "out.lcov"
                (String.concat ""
                   [TN_line; SF_line fx_accent_name; DA_line 1 1; DA_line 2 1;
                    LF_line 2; LH_line 2; end_of_record])
                fx_world fx_world ltac:(vm_compute; reflexivity)) as [_ H].
  apply H; vm_compute; reflexivity.
Defined.

(** X12 on the example of the specification. *)
Lemma X12_witness :
  stdout (fst (print_lcov ex_glob ex_lt (ex_converter None None false [ex_a])
                 ex_world))
  = [String.concat ""
       [TN_line; SF_line "a.py"; DA_line 1 1; DA_line 2 0; DA_line 3 1;
        DA_line 5 1; LF_line 4; LH_line 3; end_of_record] +:+ nl].
Proof.
  destruct (X12_print_lcov ex_glob ex_lt (ex_converter None None false [ex_a])
              ex_world ex_world) as [H _].
  apply (H (String.concat ""
              [TN_line; SF_line "a.py"; DA_line 1 1; DA_line 2 0; DA_line 3 1;
               DA_line 5 1; LF_line 4; LH_line 3; end_of_record])).
  vm_compute. reflexivity.
Defined.


(** X14 on two files with ASCII names. *)
Lemma X14_witness :
  snd (create_lcov ex_glob ex_lt (ex_converter None None false [ex_b; ex_a])
         "out.lcov" fx_world) = Return tt.
Proof.
  destruct (X14_ascii_report ex_glob ex_lt
              (ex_converter None None false [ex_b; ex_a]) fx_world fx_world
              (snd (fst (get_lcov ex_glob ex_lt
                           (ex_converter None None false [ex_b; ex_a]) fx_world),
                    match snd (get_lcov ex_glob ex_lt
                                 (ex_converter None None false [ex_b; ex_a])
                                 fx_world) with
                    | Return text => text
                    | Raise _ => ""%string
                    end))) as [_ H].
  - intros fr Hfr. change (fr ∈ [ex_b; ex_a]) in Hfr.
    listing_cases; vm_compute; reflexivity.
  - vm_compute. reflexivity.
  - by apply H.
Defined.
